(** * Agent registry, runtime session cache and conversation ledger

    A shallow embedding of the Python sources

      - [src/utils/config_manager.py]  ([ConfigManager])
      - [src/config/settings.py]       ([Settings])
      - [src/utils/agent_manager.py]   ([AgentManager])
      - [src/utils/database.py]        ([Database])
      - [src/app.py]                   (the request handlers)

    Python dictionaries are finite maps ([gmap string _]), exceptions are an
    inductive type carried by a [result], the SQLite connection is a pair of
    table states (what is durably committed, and what the connection sees
    through its open transaction), and storage failures are injected by a
    countdown on the storage primitives a call performs.  The counters of
    the stats table are modelled a second time, in [Ledger], with SQLite's
    64-bit integers, REALs and NULL. *)

From Stdlib Require Import ZArith QArith.QArith_base Ascii String.
From stdpp Require Import gmap strings list fin_maps sorting.

Set Warnings "-register-all".
Local Open Scope string_scope.
Local Open Scope Z_scope.

(** ** Python values *)

(** The values that occur in configuration documents, in agent definitions
    and in usage metadata.  A Python [float] is represented by a rational
    (only stored and passed on, never computed with). *)
Inductive pyval : Type :=
  | PNone
  | PBool (b : bool)
  | PInt (z : Z)
  | PFloat (q : Q)
  | PStr (s : string)
  | PList (l : list pyval)
  | PDict (d : gmap string pyval).

(** Python truthiness, as used by [if x:] and [if not x:]. *)
Definition truthy (v : pyval) : bool :=
  match v with
  | PNone => false
  | PBool b => b
  | PInt z => negb (Z.eqb z 0)
  | PFloat q => negb (Z.eqb (Qnum q) 0)
  | PStr s => negb (String.eqb s EmptyString)
  | PList l => match l with [] => false | _ => true end
  | PDict d => match map_to_list d with [] => false | _ => true end
  end.

(** ** Exceptions *)

Inductive exn : Type :=
  | HTTPException (status : Z) (detail : string)
  | HTTPExceptionOf (status : Z) (cause : exn)
      (* HTTPException(status_code=status, detail=str(e)) *)
  | AgentNotFound (agent_id : string)
      (* ValueError(f"Agent {agent_id} not found") *)
  | UnsupportedProvider (provider : pyval)
      (* ValueError(f"Unsupported model provider: {provider}") *)
  | FailedToCreate (cause : exn)
      (* ValueError(f"Failed to create agent instance: {e}") *)
  | AttributeError
  | TypeError
  | StorageError            (* sqlite3.Error *)
  | RuntimeFailure.         (* whatever agent.run raises *)

Inductive result (A : Type) : Type :=
  | Ok (a : A)
  | Raise (e : exn).
Arguments Ok {A} a.
Arguments Raise {A} e.

#[global] Instance result_ret : MRet result := λ A a, Ok a.
#[global] Instance result_bind : MBind result := λ A B k r,
  match r with
  | Ok a => k a
  | Raise e => Raise e
  end.

(** ** [ConfigManager] (src/utils/config_manager.py) *)

Module ConfigManager.

(** [key.split('.')] *)
Fixpoint split_on (sep : ascii) (s : string) : list string :=
  match s with
  | EmptyString => [EmptyString]
  | String c s' =>
      if Ascii.eqb c sep then EmptyString :: split_on sep s'
      else match split_on sep s' with
           | w :: ws => String c w :: ws
           | [] => [String c EmptyString]
           end
  end.

(** The loop of [get]: descend while the current value is a dict that has
    the key, return the default [dflt] as soon as it is not. *)
Fixpoint walk (keys : list string) (value dflt : pyval) : pyval :=
  match keys with
  | [] => value
  | k :: ks =>
      match value with
      | PDict d =>
          match d !! k with
          | Some v => walk ks v dflt
          | None => dflt
          end
      | _ => dflt
      end
  end.

(** [get(key, default)]; [config] is the loaded document [self.config]. *)
Definition get (config : pyval) (key : string) (dflt : pyval) : pyval :=
  walk (split_on "." key) config dflt.

(** [get_model_config(provider)]: [self.get(f"models.providers.{provider}")] *)
Definition get_model_config (config : pyval) (provider : string) : pyval :=
  get config (String.append "models.providers." provider) PNone.

(** [d.get(k, default)] on a value that need not be a dict. *)
Definition py_get (v : pyval) (k : string) (dflt : pyval) : result pyval :=
  match v with
  | PDict d => Ok (default dflt (d !! k))
  | _ => Raise AttributeError
  end.

(** [os.getenv(key)]: the process environment is a map from names to
    values; a key that is not a string is a [TypeError]. *)
Definition os_getenv (environ : gmap string string) (key : pyval)
  : result (option string) :=
  match key with
  | PStr k => Ok (environ !! k)
  | _ => Raise TypeError
  end.

Definition is_not_None {A} (o : option A) : bool :=
  match o with Some _ => true | None => false end.

(** [is_provider_configured(provider)] *)
Definition is_provider_configured (config : pyval) (environ : gmap string string)
    (provider : string) : result bool :=
  let provider_config := get_model_config config provider in
  if negb (truthy provider_config) then Ok false
  else
    api_key_env ← py_get provider_config "api_key_env" PNone;
    if negb (truthy api_key_env) then Ok false
    else
      value ← os_getenv environ api_key_env;
      Ok (is_not_None value).

(** The document written by [create_default_config]. *)
Definition str_list (l : list string) : pyval := PList (PStr <$> l).

Definition default_providers : gmap string pyval :=
  {[ "openai" := PDict {[ "api_key_env" := PStr "OPENAI_API_KEY";
                          "models" := str_list ["gpt-3.5-turbo"; "gpt-4"; "gpt-4-turbo-preview"] ]};
     "anthropic" := PDict {[ "api_key_env" := PStr "ANTHROPIC_API_KEY";
                             "models" := str_list ["claude-3-haiku-20240307";
                                                   "claude-3-sonnet-20240229";
                                                   "claude-3-opus-20240229"] ]};
     "gemini" := PDict {[ "api_key_env" := PStr "GEMINI_API_KEY";
                          "models" := str_list ["gemini-pro"; "gemini-pro-vision"] ]} ]}.

Definition default_config : pyval :=
  PDict {[ "app" := PDict {[ "name" := PStr "Pydantic AI Agent Framework";
                             "version" := PStr "1.0.0";
                             "debug" := PBool false;
                             "host" := PStr "0.0.0.0";
                             "port" := PInt 8000 ]};
           "models" := PDict {[ "default_provider" := PStr "openai";
                                "providers" := PDict default_providers ]};
           "database" := PDict {[ "type" := PStr "sqlite";
                                  "path" := PStr "data/agents.db" ]};
           "ui" := PDict {[ "theme" := PStr "light";
                            "items_per_page" := PInt 10;
                            "auto_save" := PBool true ]};
           "security" := PDict {[ "enable_auth" := PBool false;
                                  "session_timeout" := PInt 3600 ]} ]}.

(** [set(key, value)] changes the document in place: every missing key on
    the way is first bound to a fresh dict, the last key is then assigned.
    [set_in] is that walk over [keys[:-1]] followed by the assignment to
    [keys[-1]]; it returns the document as the walk leaves it, also when it
    raises.  Membership test, indexing or item assignment on a value that is
    not a dict is a [TypeError].  The document is a tree of values: a dict
    stored under two keys is two dicts here, one shared object in the
    code. *)
Fixpoint set_in (path : list string) (last : string) (config value : pyval)
  : result unit * pyval :=
  match path with
  | [] =>
      match config with
      | PDict d => (Ok tt, PDict (<[last := value]> d))
      | _ => (Raise TypeError, config)
      end
  | k :: ks =>
      match config with
      | PDict d =>
          let child := default (PDict ∅) (d !! k) in
          let '(r, child') := set_in ks last child value in
          (r, PDict (<[k := child']> d))
      | _ => (Raise TypeError, config)
      end
  end.

(** The object: the loaded document and the content of [settings.yaml]
    ([None] when the file does not exist). *)
Record t : Type := mk {
  config : pyval;
  config_file : option pyval
}.

(** [save_config()]: [writable] tells whether the file can be opened for
    writing; a failure is printed and otherwise ignored. *)
Definition save_config (writable : bool) (cm : t) : t :=
  if writable then mk (config cm) (Some (config cm)) else cm.

(** [set(key, value)]: the document is saved only when the assignment did
    not raise. *)
Definition set (writable : bool) (key : string) (value : pyval) (cm : t)
  : result unit * t :=
  let keys := split_on "." key in
  match set_in (removelast keys) (List.last keys EmptyString) (config cm) value with
  | (Ok _, doc) => (Ok tt, save_config writable (mk doc (config_file cm)))
  | (Raise e, doc) => (Raise e, mk doc (config_file cm))
  end.

(** [load_config()] as run by the constructor on the content [file] of
    [settings.yaml]: [yaml.safe_load(f) or {}] when the file exists,
    [create_default_config()] otherwise.  (A file that does not parse is
    not modelled.) *)
Definition load_config (writable : bool) (file : option pyval) : t :=
  match file with
  | Some doc => mk (if truthy doc then doc else PDict ∅) file
  | None => save_config writable (mk default_config None)
  end.

(** [get_available_providers()]: [list(self.get("models.providers", {}).keys())] *)
Definition get_available_providers (config : pyval) : result (list string) :=
  match get config "models.providers" (PDict ∅) with
  | PDict d => Ok (fst <$> map_to_list d)
  | _ => Raise AttributeError
  end.

End ConfigManager.

(** ** [Settings] (src/config/settings.py) *)

Module Settings.
Import ConfigManager.

(** The body of the [for provider, config in providers.items()] loop,
    threaded over the items; [available] is the dict being filled. *)
Fixpoint collect (config : pyval) (environ : gmap string string)
    (items : list (string * pyval)) (available : gmap string pyval)
  : result (gmap string pyval) :=
  match items with
  | [] => Ok available
  | (provider, entry) :: rest =>
      configured ← is_provider_configured config environ provider;
      if (configured : bool) then
        models ← py_get entry "models" (PList []);
        collect config environ rest (<[provider := models]> available)
      else collect config environ rest available
  end.

(** [providers.items()] *)
Definition py_items (v : pyval) : result (list (string * pyval)) :=
  match v with
  | PDict d => Ok (map_to_list d)
  | _ => Raise AttributeError
  end.

(** [get_available_models()] *)
Definition get_available_models (config : pyval) (environ : gmap string string)
  : result (gmap string pyval) :=
  let providers := get config "models.providers" (PDict ∅) in
  items ← py_items providers;
  collect config environ items ∅.

End Settings.

(** ** [AgentManager] (src/utils/agent_manager.py) *)

Module AgentManager.

(** The manager's state: the in-memory [agents_cache] and the JSON files
    of [agents_dir], one per agent id (the file [<id>.json] holds the
    definition dict).  Failures of the file system are not modelled. *)
Record t : Type := mk {
  agents_cache : gmap string (gmap string pyval);
  agents_dir : gmap string (gmap string pyval)
}.

Definition empty : t := mk ∅ ∅.

(** [get_all_agents()]: [list(self.agents_cache.values())] *)
Definition get_all_agents (m : t) : list (gmap string pyval) :=
  snd <$> map_to_list (agents_cache m).

(** [get_agent(agent_id)]: [self.agents_cache.get(agent_id)] *)
Definition get_agent (agent_id : string) (m : t) : option (gmap string pyval) :=
  agents_cache m !! agent_id.

(** [create_agent(agent_config)].  [uuid4] is the value drawn by
    [uuid.uuid4()], [now1] and [now2] are the texts of the two
    [datetime.now().isoformat()] readings.  The code stamps the dict it is
    given and stores that very dict; here the dict is a value, which is the
    same thing for a caller that passes a dict nothing else refers to, as
    the handlers do with [agent_config.dict()]. *)
Definition create_agent (uuid4 now1 now2 : string)
    (agent_config : gmap string pyval) (m : t) : string * t :=
  let agent_id := uuid4 in
  let agent_config :=
    <["updated_at" := PStr now2]>
      (<["created_at" := PStr now1]>
         (<["id" := PStr agent_id]> agent_config)) in
  (agent_id,
   mk (<[agent_id := agent_config]> (agents_cache m))
      (<[agent_id := agent_config]> (agents_dir m))).

(** [update_agent(agent_id, agent_config)]; the dict is a value, as for
    [create_agent]. *)
Definition update_agent (now : string) (agent_id : string)
    (agent_config : gmap string pyval) (m : t) : result unit * t :=
  match agents_cache m !! agent_id with
  | None => (Raise (AgentNotFound agent_id), m)
  | Some original_config =>
      let agent_config :=
        <["updated_at" := PStr now]>
          (<["created_at" := default PNone (original_config !! "created_at")]>
             (<["id" := PStr agent_id]> agent_config)) in
      (Ok tt,
       mk (<[agent_id := agent_config]> (agents_cache m))
          (<[agent_id := agent_config]> (agents_dir m)))
  end.

(** [delete_agent(agent_id)] *)
Definition delete_agent (agent_id : string) (m : t) : result unit * t :=
  match agents_cache m !! agent_id with
  | None => (Raise (AgentNotFound agent_id), m)
  | Some _ =>
      (Ok tt, mk (delete agent_id (agents_cache m)) (delete agent_id (agents_dir m)))
  end.

(** The classes of [pydantic_ai.models] and [pydantic_ai.Agent] are
    external; an instance is represented by the arguments it was
    constructed with. *)
Inductive model_class : Type := OpenAIModel | AnthropicModel | GeminiModel.

Record Model : Type := mkModel {
  model_kind : model_class;
  model_name : pyval;
  temperature : pyval;
  max_tokens : pyval
}.

Inductive tool : Type := _web_search_tool | _calculator_tool | _file_reader_tool.

Record Agent : Type := mkAgent {
  model : Model;
  system_prompt : pyval;
  tools : list tool
}.

(** [d.get(k, default)] on a definition dict *)
Definition cfg_get (d : gmap string pyval) (k : string) (dflt : pyval) : pyval :=
  default dflt (d !! k).

(** [provider == "<name>"] *)
Definition str_eq (v : pyval) (s : string) : bool :=
  match v with
  | PStr s' => String.eqb s' s
  | _ => false
  end.

(** [_get_model(agent_config)] *)
Definition _get_model (agent_config : gmap string pyval) : result Model :=
  let provider := cfg_get agent_config "model_provider" (PStr "openai") in
  let model_name := cfg_get agent_config "model_name" (PStr "gpt-3.5-turbo") in
  let temperature := cfg_get agent_config "temperature" (PFloat (7 # 10)) in
  let max_tokens := cfg_get agent_config "max_tokens" (PInt 1000) in
  if str_eq provider "openai" then
    Ok (mkModel OpenAIModel model_name temperature max_tokens)
  else if str_eq provider "anthropic" then
    Ok (mkModel AnthropicModel model_name temperature max_tokens)
  else if str_eq provider "gemini" then
    Ok (mkModel GeminiModel model_name temperature max_tokens)
  else Raise (UnsupportedProvider provider).

(** [_get_tool_function(tool_name)]: [tools_map.get(tool_name)]; a list or
    a dict is not hashable. *)
Definition _get_tool_function (tool_name : pyval) : result (option tool) :=
  match tool_name with
  | PStr s =>
      Ok (if String.eqb s "web_search" then Some _web_search_tool
          else if String.eqb s "calculator" then Some _calculator_tool
          else if String.eqb s "file_reader" then Some _file_reader_tool
          else None)
  | PList _ | PDict _ => Raise TypeError
  | _ => Ok None
  end.

(** What [for tool_name in tools] iterates over. *)
Definition py_iter (v : pyval) : result (list pyval) :=
  match v with
  | PList l => Ok l
  | PStr s => Ok ((λ c, PStr (String c EmptyString)) <$> list_ascii_of_string s)
  | PDict d => Ok ((λ kv, PStr (fst kv)) <$> map_to_list d)
  | _ => Raise TypeError
  end.

(** The loop that registers the resolved tools on the agent. *)
Fixpoint add_tools (names : list pyval) (agent : Agent) : result Agent :=
  match names with
  | [] => Ok agent
  | tool_name :: rest =>
      tool_func ← _get_tool_function tool_name;
      match tool_func with
      | Some f => add_tools rest (mkAgent (model agent) (system_prompt agent) (tools agent ++ [f]))
      | None => add_tools rest agent
      end
  end.

(** [create_agent_instance(agent_config)]: every exception of the body is
    re-raised as [ValueError("Failed to create agent instance: ...")]. *)
Definition create_agent_instance (agent_config : gmap string pyval) : result Agent :=
  let body :=
    model ← _get_model agent_config;
    let agent :=
      mkAgent model
        (cfg_get agent_config "system_prompt" (PStr "You are a helpful AI assistant."))
        [] in
    names ← py_iter (cfg_get agent_config "tools" (PList []));
    add_tools names agent in
  match body with
  | Ok agent => Ok agent
  | Raise e => Raise (FailedToCreate e)
  end.

(** [agent_file.name.startswith("template_")], on the stem of the file *)
Definition is_template_file (stem : string) : bool :=
  String.prefix "template_" stem.

(** [load_agents()]: every file [<id>.json] of [agents_dir] whose name does
    not start with "template_" is read into the cache under its stem;
    entries already in the cache under other ids stay.  (The files are the
    dicts this class wrote; a file that does not parse is not modelled.) *)
Definition load_agents (m : t) : t :=
  mk (filter (λ kv, is_template_file (fst kv) = false) (agents_dir m) ∪ agents_cache m)
     (agents_dir m).







End AgentManager.

(** ** [Database] (src/utils/database.py) *)

Module Database.

(** *** Tables *)

(** A row of [conversations].  The two message timestamps are the ISO
    texts produced by the caller; [created_at] is SQLite's
    [CURRENT_TIMESTAMP], represented by the instant in seconds (its
    fixed-width text orders like the instant). *)
Record Exchange : Type := mkExchange {
  id : Z;
  agent_id : string;
  user_message : string;
  agent_response : string;
  user_message_timestamp : string;
  agent_response_timestamp : string;
  usage_data : option (gmap string Z);
  created_at : Z
}.

(** A row of [agent_stats]; the table is keyed by its [UNIQUE] column
    [agent_id]. *)
Record StatsRow : Type := mkStats {
  total_conversations : Z;
  total_tokens_used : Z;
  last_used : Z;
  stats_created_at : Z;
  updated_at : Z
}.

(** A row of [system_logs]. *)
Record LogRow : Type := mkLog {
  log_id : Z;
  level : string;
  log_message : string;
  details : option pyval;
  log_timestamp : Z
}.

Record Tables : Type := mkTables {
  conversations : list Exchange;
  conversations_seq : Z;          (* AUTOINCREMENT counter *)
  agent_stats : gmap string StatsRow;
  system_logs : list LogRow;
  system_logs_seq : Z
}.

Definition no_tables : Tables := mkTables [] 0 ∅ [] 0.

(** The sqlite3 connection: [durable] is what has been committed, [view]
    is what statements executed on this connection read and write, that
    is [durable] plus the writes of the open transaction.  Python's
    sqlite3 opens a transaction before the first write and closes it only
    at [commit()]; the code never rolls back. *)
Record Connection : Type := mkConn {
  durable : Tables;
  view : Tables
}.

(** What the module prints. *)
Inductive line : Type :=
  | Database_initialized_successfully
  | Error_saving_conversation (e : exn)
  | Error_getting_conversation_history (e : exn)
  | Error_getting_agent_stats (e : exn)
  | Error_getting_total_conversations (e : exn)
  | Error_logging_system_event (e : exn)
  | Cleaned_up_data_older_than (days : Z)
  | Error_cleaning_up_old_data (e : exn).

(** The object's state.  [connection] is [None] until [init_db] succeeds.
    [faults = Some n] injects a storage failure: the storage primitive
    number [n] from now (counting from 0) raises [sqlite3.Error], has no
    effect, and leaves the open transaction as it is. *)
Record t : Type := mk {
  connection : option Connection;
  faults : option nat;
  stdout : list line
}.

Definition inject (n : nat) (db : t) : t := mk (connection db) (Some n) (stdout db).

(** *** Statements and errors as a state-and-exception monad *)

Definition M (A : Type) : Type := t → result A * t.

#[global] Instance M_ret : MRet M := λ A a db, (Ok a, db).
#[global] Instance M_bind : MBind M := λ A B k c db,
  match c db with
  | (Ok a, db') => k a db'
  | (Raise e, db') => (Raise e, db')
  end.

(** [try: body except Exception as e: handler] *)
Definition try_except {A} (body : M A) (handler : exn → M A) : M A := λ db,
  match body db with
  | (Ok a, db') => (Ok a, db')
  | (Raise e, db') => handler e db'
  end.

Definition print (l : line) : M unit := λ db,
  (Ok tt, mk (connection db) (faults db) (stdout db ++ [l])).

(** A storage primitive: fails with [AttributeError] when there is no
    connection object, fails when the injected fault is due, and runs
    [op] on the connection otherwise. *)
Definition storage {A} (op : Connection → A * Connection) : M A := λ db,
  match connection db with
  | None => (Raise AttributeError, db)
  | Some c =>
      match faults db with
      | Some O => (Raise StorageError, mk (Some c) None (stdout db))
      | f =>
          let '(a, c') := op c in
          (Ok a, mk (Some c') (Nat.pred <$> f) (stdout db))
      end
  end.

(** [self.connection.cursor()] *)
Definition cursor : M unit := storage (λ c, (tt, c)).

(** [cursor.execute] of an INSERT, UPDATE or DELETE *)
Definition execute_write (stmt : Tables → Tables) : M unit :=
  storage (λ c, (tt, mkConn (durable c) (stmt (view c)))).

(** [cursor.execute] of a SELECT, and the [fetchone]/[fetchall] after it *)
Definition execute_select : M unit := storage (λ c, (tt, c)).
Definition fetch {A} (query : Tables → A) : M A := storage (λ c, (query (view c), c)).

(** [self.connection.commit()] *)
Definition commit : M unit := storage (λ c, (tt, mkConn (view c) (view c))).

(** *** The SQL statements *)

(** [INSERT INTO conversations (...) VALUES (?, ?, ?, ?, ?, ?)] *)
Definition insert_conversation (agent : string) (um ar uts ats : string)
    (usage : option (gmap string Z)) (now : Z) (T : Tables) : Tables :=
  let rowid := conversations_seq T + 1 in
  mkTables (conversations T ++ [mkExchange rowid agent um ar uts ats usage now])
           rowid (agent_stats T) (system_logs T) (system_logs_seq T).

(** [SELECT * FROM agent_stats WHERE agent_id = ?] *)
Definition select_stats (agent : string) (T : Tables) : option StatsRow :=
  agent_stats T !! agent.

(** [UPDATE agent_stats SET total_conversations = total_conversations + 1,
     total_tokens_used = total_tokens_used + ?, last_used = CURRENT_TIMESTAMP,
     updated_at = CURRENT_TIMESTAMP WHERE agent_id = ?] *)
Definition update_stats (tokens_used : Z) (agent : string) (now : Z) (T : Tables) : Tables :=
  mkTables (conversations T) (conversations_seq T)
    (alter (λ r, mkStats (total_conversations r + 1) (total_tokens_used r + tokens_used)
                         now (stats_created_at r) now) agent (agent_stats T))
    (system_logs T) (system_logs_seq T).

(** [INSERT INTO agent_stats (agent_id, total_conversations,
     total_tokens_used, last_used) VALUES (?, 1, ?, CURRENT_TIMESTAMP)] *)
Definition insert_stats (agent : string) (tokens_used : Z) (now : Z) (T : Tables) : Tables :=
  mkTables (conversations T) (conversations_seq T)
    (<[agent := mkStats 1 tokens_used now now now]> (agent_stats T))
    (system_logs T) (system_logs_seq T).

(** [datetime('now', '-{} days'.format(days))]: for a negative [days] the
    modifier reads [--N days], which SQLite rejects; the value is then
    NULL and no comparison with it holds. *)
Definition cutoff (now days : Z) : option Z :=
  if days <? 0 then None else Some (now - days * 86400).

Definition older_than (c : option Z) (ts : Z) : bool :=
  match c with
  | Some c => ts <? c
  | None => false
  end.

(** [DELETE FROM conversations WHERE created_at < datetime('now', ...)] *)
Definition delete_old_conversations (c : option Z) (T : Tables) : Tables :=
  mkTables (List.filter (λ r, negb (older_than c (created_at r))) (conversations T))
           (conversations_seq T) (agent_stats T) (system_logs T) (system_logs_seq T).

(** [DELETE FROM system_logs WHERE timestamp < datetime('now', ...)] *)
Definition delete_old_logs (c : option Z) (T : Tables) : Tables :=
  mkTables (conversations T) (conversations_seq T) (agent_stats T)
           (List.filter (λ r, negb (older_than c (log_timestamp r))) (system_logs T))
           (system_logs_seq T).

(** [INSERT INTO system_logs (level, message, details) VALUES (?, ?, ?)] *)
Definition insert_log (lvl msg : string) (det : option pyval) (now : Z) (T : Tables) : Tables :=
  let rowid := system_logs_seq T + 1 in
  mkTables (conversations T) (conversations_seq T) (agent_stats T)
           (system_logs T ++ [mkLog rowid lvl msg det now]) rowid.

(** [ORDER BY created_at DESC] (rows of equal time keep their order) *)
Fixpoint insert_desc (x : Exchange) (l : list Exchange) : list Exchange :=
  match l with
  | [] => [x]
  | y :: l' =>
      if created_at y <=? created_at x then x :: y :: l'
      else y :: insert_desc x l'
  end.

Definition order_by_created_at_desc (l : list Exchange) : list Exchange :=
  foldr insert_desc [] l.

(** [LIMIT ?]: a negative limit is no limit. *)
Definition sql_limit {A} (limit : Z) (l : list A) : list A :=
  if limit <? 0 then l else take (Z.to_nat limit) l.

(** [SELECT * FROM conversations WHERE agent_id = ?
     ORDER BY created_at DESC LIMIT ?] *)
Definition select_history (agent : string) (limit : Z) (T : Tables) : list Exchange :=
  sql_limit limit
    (order_by_created_at_desc
       (List.filter (λ r, String.eqb (agent_id r) agent) (conversations T))).

(** [SELECT COUNT( * ) as total FROM conversations] *)
Definition count_conversations (T : Tables) : Z :=
  Z.of_nat (length (conversations T)).

(** *** The methods *)

(** [Database()]: no connection yet. *)
Definition new : t := mk None None [].

(** [init_db()], when [sqlite3.connect] and the [CREATE TABLE IF NOT
    EXISTS] statements succeed; [file] is the content of the database
    file. *)
Definition init_db (file : Tables) (db : t) : t :=
  mk (Some (mkConn file file)) (faults db)
     (stdout db ++ [Database_initialized_successfully]).

(** The message dicts that [chat_with_agent] builds and passes to
    [save_conversation]; [usage] is [None] when the key is missing or
    holds [None]. *)
Record Message : Type := mkMessage {
  role : string;
  content : string;
  timestamp : string;
  usage : option (gmap string Z)
}.

(** [if usage:] on an optional dict *)
Definition usage_truthy (u : option (gmap string Z)) : bool :=
  match u with
  | Some d => match map_to_list d with [] => false | _ => true end
  | None => false
  end.

(** [_update_agent_stats(agent_id, usage_data)] *)
Definition _update_agent_stats (agent : string)
    (usage_data : option (gmap string Z)) (now : Z) : M unit :=
  _ ← cursor;
  _ ← execute_select;
  stats ← fetch (select_stats agent);
  let tokens_used :=
    if usage_truthy usage_data
    then default 0 (default ∅ usage_data !! "total_tokens")
    else 0 in
  match stats with
  | Some _ => execute_write (update_stats tokens_used agent now)
  | None => execute_write (insert_stats agent tokens_used now)
  end.

(** [save_conversation(agent_id, user_message, agent_message)]; [now] is
    the reading of [CURRENT_TIMESTAMP] during the call. *)
Definition save_conversation (agent : string) (user_msg agent_msg : Message)
    (now : Z) : M unit :=
  try_except
    (_ ← cursor;
     _ ← execute_write
           (insert_conversation agent (content user_msg) (content agent_msg)
              (timestamp user_msg) (timestamp agent_msg)
              (if usage_truthy (usage agent_msg) then usage agent_msg else None)
              now);
     _ ← _update_agent_stats agent (usage agent_msg) now;
     commit)
    (λ e, print (Error_saving_conversation e)).

(** The dict built for each row by [get_conversation_history]. *)
Record HistoryEntry : Type := mkEntry {
  h_id : Z;
  h_user_message : string;
  h_agent_response : string;
  h_user_timestamp : string;
  h_agent_timestamp : string;
  h_usage : option (gmap string Z);
  h_created_at : Z
}.

Definition entry_of_row (row : Exchange) : HistoryEntry :=
  mkEntry (id row) (user_message row) (agent_response row)
          (user_message_timestamp row) (agent_response_timestamp row)
          (if usage_truthy (usage_data row) then usage_data row else None)
          (created_at row).

(** The [try] block of [get_conversation_history]. *)
Definition get_conversation_history_body (agent : string) (limit : Z)
  : M (list HistoryEntry) :=
  _ ← cursor;
  _ ← execute_select;
  rows ← fetch (select_history agent limit);
  mret (entry_of_row <$> rows).

(** [get_conversation_history(agent_id, limit)] *)
Definition get_conversation_history (agent : string) (limit : Z)
  : M (list HistoryEntry) :=
  try_except (get_conversation_history_body agent limit)
    (λ e, _ ← print (Error_getting_conversation_history e); mret []).

(** The [try] block of [get_agent_stats]; the dict returned is the
    agent id with the row's columns. *)
Definition get_agent_stats_body (agent : string) : M (option (string * StatsRow)) :=
  _ ← cursor;
  _ ← execute_select;
  row ← fetch (select_stats agent);
  match row with
  | Some r => mret (Some (agent, r))
  | None => mret None
  end.

(** [get_agent_stats(agent_id)] *)
Definition get_agent_stats (agent : string) : M (option (string * StatsRow)) :=
  try_except (get_agent_stats_body agent)
    (λ e, _ ← print (Error_getting_agent_stats e); mret None).

(** The [try] block of [get_total_conversations]. *)
Definition get_total_conversations_body : M Z :=
  _ ← cursor;
  _ ← execute_select;
  fetch count_conversations.

(** [get_total_conversations()] *)
Definition get_total_conversations : M Z :=
  try_except get_total_conversations_body
    (λ e, _ ← print (Error_getting_total_conversations e); mret 0).

(** [log_system_event(level, message, details)] *)
Definition log_system_event (lvl msg : string) (det : option pyval) (now : Z) : M unit :=
  try_except
    (_ ← cursor;
     _ ← execute_write
           (insert_log lvl msg (match det with
                                | Some d => if truthy d then Some d else None
                                | None => None
                                end) now);
     commit)
    (λ e, print (Error_logging_system_event e)).

(** [cleanup_old_data(days)] *)
Definition cleanup_old_data (days : Z) (now : Z) : M unit :=
  try_except
    (_ ← cursor;
     _ ← execute_write (delete_old_conversations (cutoff now days));
     _ ← execute_write (delete_old_logs (cutoff now days));
     _ ← commit;
     print (Cleaned_up_data_older_than days))
    (λ e, print (Error_cleaning_up_old_data e)).

End Database.

(** ** The write path with SQLite's storage classes *)

(** [Database] above counts in mathematical integers and takes every token
    count to be an integer; that is exact as long as the counters stay
    within SQLite's signed 64-bit INTEGER.  [Ledger] is the write path of
    [save_conversation] once more, with what SQLite and the sqlite3 module
    do outside that range: a Python int that does not fit raises
    [OverflowError] when it is bound, an integer sum that overflows is
    computed in double precision and becomes a REAL, a REAL that is a whole
    number strictly inside the 64-bit range goes back to INTEGER when it is
    stored in a column of INTEGER affinity, and [None] is NULL, which any
    sum with it also is.  An INSERT into a table whose AUTOINCREMENT
    sequence has reached the largest 64-bit integer fails ("database or
    disk is full"), and SQLite then rolls the open transaction back.  The
    token counts of a usage record are integers or [None]. *)
Module Ledger.

Definition int64_min : Z := - 2 ^ 63.
Definition int64_max : Z := 2 ^ 63 - 1.

Definition in_int64 (z : Z) : bool := (int64_min <=? z) && (z <=? int64_max).

(** A value of a numeric column: NULL, an INTEGER, or a REAL.  The REALs
    that arise are whole numbers; [Real d] is the double whose value is
    [d]. *)
Inductive value : Type :=
  | Null
  | Integer (z : Z)
  | Real (d : Z).

(** The double nearest to an integer (ties to even): what the conversion
    of a 64-bit integer to double and the rounding of a double sum give. *)
Definition round_double (z : Z) : Z :=
  let a := Z.abs z in
  if a <? 2 ^ 53 then z
  else
    let k := Z.log2 a - 52 in
    let q := Z.shiftr a k in
    let r := a - Z.shiftl q k in
    let half := 2 ^ (k - 1) in
    let q' := if (half <? r) || ((r =? half) && Z.odd q) then q + 1 else q in
    Z.sgn z * Z.shiftl q' k.

(** The operand of a double-precision sum *)
Definition as_double (v : value) : Z :=
  match v with
  | Null => 0
  | Integer z => round_double z
  | Real d => d
  end.

(** SQL [a + b] *)
Definition add (a b : value) : value :=
  match a, b with
  | Null, _ | _, Null => Null
  | Integer x, Integer y =>
      if in_int64 (x + y) then Integer (x + y)
      else Real (round_double (round_double x + round_double y))
  | _, _ => Real (round_double (as_double a + as_double b))
  end.

(** Storing a value in a column of INTEGER affinity *)
Definition store (v : value) : value :=
  match v with
  | Real d => if (int64_min <? d) && (d <? int64_max) then Integer d else Real d
  | _ => v
  end.

(** Exceptions: those of the rest of the development, and the
    [OverflowError] of binding a Python int that SQLite cannot hold. *)
Inductive error : Type :=
  | Python (e : exn)
  | OverflowError.

Inductive outcome (A : Type) : Type :=
  | Done (a : A)
  | Failed (e : error).
Arguments Done {A} a.
Arguments Failed {A} e.

(** Binding a Python value ([None] or an int) as a statement parameter *)
Definition bind (p : option Z) : outcome value :=
  match p with
  | None => Done Null
  | Some z => if in_int64 z then Done (Integer z) else Failed OverflowError
  end.

(** *** Tables *)

Record Exchange : Type := mkExchange {
  id : Z;
  agent_id : string;
  user_message : string;
  agent_response : string;
  user_message_timestamp : string;
  agent_response_timestamp : string;
  usage_data : option (gmap string (option Z));
  created_at : Z
}.

Record StatsRow : Type := mkStats {
  total_conversations : value;
  total_tokens_used : value;
  last_used : Z;
  stats_created_at : Z;
  updated_at : Z
}.

(** The two tables with their AUTOINCREMENT sequences. *)
Record Tables : Type := mkTables {
  conversations : list Exchange;
  conversations_seq : Z;
  agent_stats : gmap string StatsRow;
  agent_stats_seq : Z
}.

Definition no_tables : Tables := mkTables [] 0 ∅ 0.

(** As in [Database]: what is committed, and what the connection sees. *)
Record Connection : Type := mkConn {
  durable : Tables;
  view : Tables
}.

Inductive line : Type :=
  | Error_saving_conversation (e : error).

Record t : Type := mk {
  connection : option Connection;
  stdout : list line
}.

Definition M (A : Type) : Type := t → outcome A * t.

#[global] Instance M_ret : MRet M := λ A a db, (Done a, db).
#[global] Instance M_bind : MBind M := λ A B k c db,
  match c db with
  | (Done a, db') => k a db'
  | (Failed e, db') => (Failed e, db')
  end.

Definition try_except {A} (body : M A) (handler : error → M A) : M A := λ db,
  match body db with
  | (Done a, db') => (Done a, db')
  | (Failed e, db') => handler e db'
  end.

Definition print (l : line) : M unit := λ db,
  (Done tt, mk (connection db) (stdout db ++ [l])).

(** A step on the connection object; without one it is an
    [AttributeError]. *)
Definition on_connection {A} (op : Connection → A * Connection) : M A := λ db,
  match connection db with
  | None => (Failed (Python AttributeError), db)
  | Some c => let '(a, c') := op c in (Done a, mk (Some c') (stdout db))
  end.

Definition cursor : M unit := on_connection (λ c, (tt, c)).
Definition execute_select : M unit := on_connection (λ c, (tt, c)).
Definition fetch {A} (query : Tables → A) : M A :=
  on_connection (λ c, (query (view c), c)).
Definition commit : M unit := on_connection (λ c, (tt, mkConn (view c) (view c))).

(** [cursor.execute] of a write whose parameters bind without error.
    [room] tells whether the statement finds the row id it needs; when it
    does not, the statement fails and the open transaction is rolled
    back. *)
Definition execute_write (room : Tables → bool) (stmt : Tables → Tables) : M unit :=
  λ db,
    match connection db with
    | None => (Failed (Python AttributeError), db)
    | Some c =>
        if room (view c)
        then (Done tt, mk (Some (mkConn (durable c) (stmt (view c)))) (stdout db))
        else (Failed (Python StorageError),
              mk (Some (mkConn (durable c) (durable c))) (stdout db))
    end.

(** [cursor.execute] of a write with a numeric parameter: the parameter is
    bound first, then the statement runs. *)
Definition execute_bound (p : option Z) (room : Tables → bool)
    (stmt : value → Tables → Tables) : M unit :=
  λ db,
    match connection db with
    | None => (Failed (Python AttributeError), db)
    | Some _ =>
        match bind p with
        | Failed e => (Failed e, db)
        | Done v => execute_write room (stmt v) db
        end
    end.

(** The next row id of a sequence exists. *)
Definition has_next (seq : Z) : bool := seq <? int64_max.

(** *** The SQL statements *)

Definition insert_conversation (agent : string) (um ar uts ats : string)
    (usage_json : option (gmap string (option Z))) (now : Z) (T : Tables) : Tables :=
  let rowid := conversations_seq T + 1 in
  mkTables (conversations T ++ [mkExchange rowid agent um ar uts ats usage_json now])
           rowid (agent_stats T) (agent_stats_seq T).

Definition select_stats (agent : string) (T : Tables) : option StatsRow :=
  agent_stats T !! agent.

(** [UPDATE agent_stats SET total_conversations = total_conversations + 1,
     total_tokens_used = total_tokens_used + ?, last_used = CURRENT_TIMESTAMP,
     updated_at = CURRENT_TIMESTAMP WHERE agent_id = ?] *)
Definition update_stats (agent : string) (now : Z) (tokens_used : value) (T : Tables)
  : Tables :=
  mkTables (conversations T) (conversations_seq T)
    (alter (λ r, mkStats (store (add (total_conversations r) (Integer 1)))
                         (store (add (total_tokens_used r) tokens_used))
                         now (stats_created_at r) now) agent (agent_stats T))
    (agent_stats_seq T).

(** [INSERT INTO agent_stats (agent_id, total_conversations,
     total_tokens_used, last_used) VALUES (?, 1, ?, CURRENT_TIMESTAMP)] *)
Definition insert_stats (agent : string) (now : Z) (tokens_used : value) (T : Tables)
  : Tables :=
  mkTables (conversations T) (conversations_seq T)
    (<[agent := mkStats (Integer 1) (store tokens_used) now now now]> (agent_stats T))
    (agent_stats_seq T + 1).

(** *** The methods *)

Record Message : Type := mkMessage {
  role : string;
  content : string;
  timestamp : string;
  usage : option (gmap string (option Z))
}.

(** [if usage:] on an optional dict *)
Definition usage_truthy (u : option (gmap string (option Z))) : bool :=
  match u with
  | Some d => match map_to_list d with [] => false | _ => true end
  | None => false
  end.

(** [tokens_used]: 0, or [usage_data.get("total_tokens", 0)] when the
    usage dict is not empty; [None] when the entry holds [None]. *)
Definition tokens_used (usage_data : option (gmap string (option Z))) : option Z :=
  if usage_truthy usage_data
  then default (Some 0) (default ∅ usage_data !! "total_tokens")
  else Some 0.

(** [_update_agent_stats(agent_id, usage_data)] *)
Definition _update_agent_stats (agent : string)
    (usage_data : option (gmap string (option Z))) (now : Z) : M unit :=
  _ ← cursor;
  _ ← execute_select;
  stats ← fetch (select_stats agent);
  match stats with
  | Some _ =>
      execute_bound (tokens_used usage_data) (λ _, true) (update_stats agent now)
  | None =>
      execute_bound (tokens_used usage_data) (λ T, has_next (agent_stats_seq T))
                    (insert_stats agent now)
  end.

(** [save_conversation(agent_id, user_message, agent_message)] *)
Definition save_conversation (agent : string) (user_msg agent_msg : Message)
    (now : Z) : M unit :=
  try_except
    (_ ← cursor;
     _ ← execute_write (λ T, has_next (conversations_seq T))
           (insert_conversation agent (content user_msg) (content agent_msg)
              (timestamp user_msg) (timestamp agent_msg)
              (if usage_truthy (usage agent_msg) then usage agent_msg else None)
              now);
     _ ← _update_agent_stats agent (usage agent_msg) now;
     commit)
    (λ e, print (Error_saving_conversation e)).

(** The integer a column holds, for statements about rows that hold
    integers. *)
Definition int_of (v : value) : Z :=
  match v with
  | Integer z => z
  | _ => 0
  end.

(** The prior stats row, if any, holds integers, and one more conversation
    with [tokens] more tokens still fits. *)
Definition prior_fits (prior : option StatsRow) (tokens : Z) : bool :=
  match prior with
  | None => true
  | Some r =>
      match total_conversations r, total_tokens_used r with
      | Integer n, Integer k => in_int64 (n + 1) && in_int64 (k + tokens)
      | _, _ => false
      end
  end.

(** The sequences are not exhausted: the exchange finds a row id, and so
    does the stats row of [agent] when it has to be created. *)
Definition sequences_fit (T : Tables) (agent : string) : bool :=
  has_next (conversations_seq T) &&
  match agent_stats T !! agent with
  | Some _ => true
  | None => has_next (agent_stats_seq T)
  end.

End Ledger.


(** ** The request handlers (src/app.py) *)

Module App.

(** The pydantic model [AgentConfig]: the fields are typed, and nothing
    else about them is constrained. *)
Record AgentConfig : Type := mkAgentConfig {
  name : string;
  description : string;
  system_prompt : string;
  model_provider : string;
  model_name : string;
  temperature : Q;
  max_tokens : Z;
  tools : list string;
  enabled : bool
}.

(** [agent_config.dict()] *)
Definition dict (c : AgentConfig) : gmap string pyval :=
  {[ "name" := PStr (name c);
     "description" := PStr (description c);
     "system_prompt" := PStr (system_prompt c);
     "model_provider" := PStr (model_provider c);
     "model_name" := PStr (model_name c);
     "temperature" := PFloat (temperature c);
     "max_tokens" := PInt (max_tokens c);
     "tools" := PList (PStr <$> tools c);
     "enabled" := PBool (enabled c) ]}.

Record ChatMessage : Type := mkChatMessage {
  agent_id : string;
  message : string;
  user_id : string
}.

(** What [agent.run(message)] returns: [result.data] and
    [result.usage()] (already as the dict of [.dict()], or [None]). *)
Record RunResult : Type := mkRunResult {
  data : string;
  run_usage : option (gmap string Z)
}.

(** The module-level objects: the two managers and the global dicts
    [active_agents] and [conversation_history]. *)
Record t : Type := mk {
  agent_manager : AgentManager.t;
  database : Database.t;
  active_agents : gmap string AgentManager.Agent;
  conversation_history : gmap string (list Database.Message)
}.

Definition startup (file : Database.Tables) : t :=
  mk AgentManager.empty (Database.init_db file Database.new) ∅ ∅.

Definition with_manager (m : AgentManager.t) (app : t) : t :=
  mk m (database app) (active_agents app) (conversation_history app).

(** [if not agent_config] on a definition dict *)
Definition dict_truthy (d : gmap string pyval) : bool := truthy (PDict d).

(** [POST /api/agents] *)
Definition create_agent (uuid4 now1 now2 : string) (agent_config : AgentConfig)
    (app : t) : result string * t :=
  let '(agent_id, m) :=
    AgentManager.create_agent uuid4 now1 now2 (dict agent_config) (agent_manager app) in
  (Ok agent_id, with_manager m app).

(** [PUT /api/agents/{agent_id}] *)
Definition update_agent (now : string) (agent_id : string) (agent_config : AgentConfig)
    (app : t) : result unit * t :=
  match AgentManager.update_agent now agent_id (dict agent_config) (agent_manager app) with
  | (Ok _, m) => (Ok tt, with_manager m app)
  | (Raise e, m) => (Raise (HTTPExceptionOf 400 e), with_manager m app)
  end.

(** [DELETE /api/agents/{agent_id}] *)
Definition delete_agent (agent_id : string) (app : t) : result unit * t :=
  match AgentManager.delete_agent agent_id (agent_manager app) with
  | (Ok _, m) =>
      (Ok tt, mk m (database app) (delete agent_id (active_agents app))
                 (delete agent_id (conversation_history app)))
  | (Raise e, m) => (Raise (HTTPExceptionOf 400 e), with_manager m app)
  end.

(** [POST /api/agents/{agent_id}/toggle].  [get_agent] returns the cached
    dict itself, so the assignment to ["enabled"] already changes the
    cache entry; [update_agent] is then called with that same dict. *)
Definition toggle_agent (now : string) (agent_id : string) (app : t) : result bool * t :=
  let m := agent_manager app in
  match AgentManager.get_agent agent_id m with
  | None => (Raise (HTTPExceptionOf 400 (HTTPException 404 "Agent not found")), app)
  | Some agent_config =>
      if negb (dict_truthy agent_config)
      then (Raise (HTTPExceptionOf 400 (HTTPException 404 "Agent not found")), app)
      else
        let flag := negb (truthy (AgentManager.cfg_get agent_config "enabled" (PBool false))) in
        let agent_config := <["enabled" := PBool flag]> agent_config in
        let m := AgentManager.mk (<[agent_id := agent_config]> (AgentManager.agents_cache m))
                                 (AgentManager.agents_dir m) in
        match AgentManager.update_agent now agent_id agent_config m with
        | (Ok _, m) => (Ok flag, with_manager m app)
        | (Raise e, m) => (Raise (HTTPExceptionOf 400 e), with_manager m app)
        end
  end.

(** The "get or create agent instance" block of [chat_with_agent]
    (through [agent = active_agents[agent_id]]). *)
Definition get_or_create_instance (agent_id : string) (app : t)
  : result AgentManager.Agent * t :=
  match active_agents app !! agent_id with
  | Some agent => (Ok agent, app)
  | None =>
      match AgentManager.get_agent agent_id (agent_manager app) with
      | None => (Raise (HTTPException 404 "Agent not found"), app)
      | Some agent_config =>
          if negb (dict_truthy agent_config)
          then (Raise (HTTPException 404 "Agent not found"), app)
          else if negb (truthy (AgentManager.cfg_get agent_config "enabled" (PBool false)))
          then (Raise (HTTPException 400 "Agent is disabled"), app)
          else
            match AgentManager.create_agent_instance agent_config with
            | Raise e => (Raise e, app)
            | Ok agent =>
                (Ok agent,
                 mk (agent_manager app) (database app)
                    (<[agent_id := agent]> (active_agents app))
                    (conversation_history app))
            end
      end
  end.

(** [conversation_history[agent_id].append(msg)], after the entry was
    initialised to [[]] when missing *)
Definition append_history (agent_id : string) (msg : Database.Message) (app : t) : t :=
  mk (agent_manager app) (database app) (active_agents app)
     (<[agent_id := (default [] (conversation_history app !! agent_id) ++ [msg])%list]>
        (conversation_history app)).

(** The answer of [POST /api/chat]: [{"success": True, "response": ..,
    "usage": ..}] or [{"success": False, "error": str(e)}]. *)
Inductive ChatResponse : Type :=
  | ChatSuccess (response : string) (usage : option (gmap string Z))
  | ChatFailure (error : exn).

Section Runtime.

(** The model call [await agent.run(message)] is external. *)
Variable run : AgentManager.Agent → string → result RunResult.

(** [chat_with_agent(chat_message)]; [t_user] and [t_agent] are the
    texts of the two [datetime.now().isoformat()] readings, [now] is
    the database's [CURRENT_TIMESTAMP]. *)
Definition chat_with_agent (t_user t_agent : string) (now : Z)
    (chat_message : ChatMessage) (app : t) : ChatResponse * t :=
  let agent_id := agent_id chat_message in
  let message := message chat_message in
  match get_or_create_instance agent_id app with
  | (Raise e, app) => (ChatFailure e, app)
  | (Ok agent, app) =>
      let user_message := Database.mkMessage "user" message t_user None in
      let app := append_history agent_id user_message app in
      match run agent message with
      | Raise e => (ChatFailure e, app)
      | Ok res =>
          let agent_message :=
            Database.mkMessage "assistant" (data res) t_agent (run_usage res) in
          let app := append_history agent_id agent_message app in
          match Database.save_conversation agent_id user_message agent_message now
                  (database app) with
          | (Ok _, db) =>
              (ChatSuccess (data res) (run_usage res),
               mk (agent_manager app) db (active_agents app) (conversation_history app))
          | (Raise e, db) =>
              (ChatFailure e,
               mk (agent_manager app) db (active_agents app) (conversation_history app))
          end
      end
  end.

End Runtime.

(** The ledger as the connection sees it, and as it is committed. *)
Definition ledger (app : t) : list Database.Exchange :=
  match Database.connection (database app) with
  | Some c => Database.conversations (Database.view c)
  | None => []
  end.

End App.

(** ** Simultaneous callers of the get-or-create block *)

(** The block of [chat_with_agent] from the membership test to
    [agent = active_agents[agent_id]] awaits only [get_agent] and
    [create_agent_instance], which await nothing: it has no suspension
    point, so the event loop runs it to its end for one caller before it
    starts it for the next.  Simultaneous callers are served one after the
    other. *)
Module Callers.


Definition cached (agent_id : string) (app : App.t) : bool :=
  match App.active_agents app !! agent_id with Some _ => true | None => false end.



End Callers.

(** ** Shapes, test doubles and scenarios used by the statements *)

(** The documented shape of the provider catalog: provider identifiers
    contain no dot, and every entry is a dict whose ["api_key_env"], when
    present, is a string. *)
Module CatalogShape.

Fixpoint dot_free (s : string) : bool :=
  match s with
  | EmptyString => true
  | String c s' => negb (Ascii.eqb c ".") && dot_free s'
  end.

Definition entry_ok (entry : pyval) : bool :=
  match entry with
  | PDict d =>
      match d !! "api_key_env" with
      | None | Some (PStr _) => true
      | Some _ => false
      end
  | _ => false
  end.

Definition catalog_ok (providers : gmap string pyval) : bool :=
  forallb (λ kv, dot_free (fst kv) && entry_ok (snd kv)) (map_to_list providers).

(** The entry declares the credential-lookup key [k]. *)
Definition declares_key (entry : pyval) (k : string) : Prop :=
  ∃ d, entry = PDict d ∧ d !! "api_key_env" = Some (PStr k) ∧ k ≠ EmptyString.

(** The credential check the code performs on an entry: a non-empty
    key name is declared and that name is set in the environment. *)
Definition key_set (environ : gmap string string) (entry : pyval) : bool :=
  match entry with
  | PDict d =>
      match d !! "api_key_env" with
      | Some (PStr k) =>
          negb (String.eqb k EmptyString) && ConfigManager.is_not_None (environ !! k)
      | _ => false
      end
  | _ => false
  end.

End CatalogShape.

(** Test doubles and the concrete runs the closed statements evaluate. *)
Module Scenario.

(** A runtime double: the answer is the system prompt the handle was
    built with, and 7 tokens are reported. *)
Definition echo_run (agent : AgentManager.Agent) (message : string)
  : result App.RunResult :=
  Ok (App.mkRunResult
        (match AgentManager.system_prompt agent with PStr s => s | _ => EmptyString end)
        (Some {[ "total_tokens" := 7 ]})).

Definition draft_A : App.AgentConfig :=
  App.mkAgentConfig "A" "first agent" "old prompt" "openai" "gpt-4"
                    (7 # 10) 1000 [] true.

Definition draft_A' : App.AgentConfig :=
  App.mkAgentConfig "A" "first agent" "new prompt" "openai" "gpt-4"
                    (7 # 10) 1000 [] true.

(** A draft that violates every constraint of the specification. *)
Definition bad_draft : App.AgentConfig :=
  App.mkAgentConfig EmptyString EmptyString EmptyString EmptyString EmptyString (5 # 1) 0 [] true.

Definition hello : App.ChatMessage := App.mkChatMessage "id-A" "hello" "default".

(** startup; create A; first message to A (the handle is now cached) *)
Definition app0 : App.t := App.startup Database.no_tables.
Definition app1 : App.t := snd (App.create_agent "id-A" "t0" "t0'" draft_A app0).
Definition app2 : App.t := snd (App.chat_with_agent echo_run "t1" "t2" 100 hello app1).

(** then the prompt of A is updated *)
Definition app3 : App.t := snd (App.update_agent "t3" "id-A" draft_A' app2).

(** or A is disabled *)
Definition app3' : App.t := snd (App.toggle_agent "t3" "id-A" app2).

Definition db0 : Database.t := Database.init_db Database.no_tables Database.new.
Definition msg_u : Database.Message := Database.mkMessage "user" "hello" "t1" None.
Definition msg_a : Database.Message :=
  Database.mkMessage "assistant" "hi" "t2" (Some {[ "total_tokens" := 7 ]}).

End Scenario.

(** Notions the statements about the store and the ledger are phrased
    with. *)
Module Derived.

(** The tool a name resolves to, if any. *)
Definition tool_named (s : string) : option AgentManager.tool :=
  match AgentManager._get_tool_function (PStr s) with
  | Ok o => o
  | Raise _ => None
  end.



End Derived.

(** Small states and messages for the closed statements about counters,
    callers and handlers. *)
Module Small.

(** A definition that is enabled and leaves everything else to the
    defaults, and the handle built from it. *)
Definition definition : gmap string pyval := {[ "enabled" := PBool true ]}.

Definition handle : AgentManager.Agent :=
  AgentManager.mkAgent
    (AgentManager.mkModel AgentManager.OpenAIModel (PStr "gpt-3.5-turbo")
                          (PFloat (7 # 10)) (PInt 1000))
    (PStr "You are a helpful AI assistant.") [].

Definition manager : AgentManager.t :=
  AgentManager.mk {[ "a" := definition ]} {[ "a" := definition ]}.

(** The definition is stored, no handle is cached. *)
Definition app : App.t := App.mk manager Database.new ∅ ∅.

(** The same with the handle cached. *)
Definition app_cached : App.t := App.mk manager Database.new {[ "a" := handle ]} ∅.

Definition draft : App.AgentConfig :=
  App.mkAgentConfig "n" "d" "p" "openai" "m" (1 # 2) 10 [] true.

Definition ledger : Ledger.t :=
  Ledger.mk (Some (Ledger.mkConn Ledger.no_tables Ledger.no_tables)) [].

Definition said : Ledger.Message := Ledger.mkMessage "user" "hello" "t1" None.

(** An answer with 7 tokens, one with 2^63 tokens, one whose count is
    [None]. *)
Definition answered (total_tokens : option Z) : Ledger.Message :=
  Ledger.mkMessage "assistant" "hi" "t2" (Some {[ "total_tokens" := total_tokens ]}).

End Small.

(** * Properties *)

(** ** Provider catalog *)

Section provider_catalog.
Import ConfigManager Settings CatalogShape.

Lemma split_on_dot_free p : dot_free p = true → split_on "." p = [p].
Proof.
  induction p as [|c p IH]; simpl; [done|].
  intros [Hc Hp]%andb_prop. apply negb_true_iff in Hc. rewrite Hc.
  by rewrite (IH Hp).
Qed.

Lemma split_on_provider_path p :
  dot_free p = true →
  split_on "." (String.append "models.providers." p) = ["models"; "providers"; p].
Proof.
  intros Hp. simpl. change (String.append EmptyString p) with p.
  by rewrite (split_on_dot_free p Hp).
Qed.

Lemma get_model_config_entry config providers p entry :
  get config "models.providers" (PDict ∅) = PDict providers →
  dot_free p = true →
  providers !! p = Some entry →
  get_model_config config p = entry.
Proof.
  unfold get_model_config, get. intros Hget Hp Hentry.
  rewrite (split_on_provider_path p Hp).
  assert (Hne : PDict providers ≠ PDict ∅).
  { intros [= ->]. by rewrite lookup_empty in Hentry. }
  change (split_on "." "models.providers") with ["models"; "providers"] in Hget.
  cbn in *.
  destruct config as [| | | | | |d]; try congruence.
  destruct (d !! "models") as [[| | | | | |d']|]; try congruence.
  destruct (d' !! "providers") as [v|]; try congruence.
  subst v. by rewrite Hentry.
Qed.

Lemma dict_truthy_lookup (d : gmap string pyval) k v :
  d !! k = Some v → truthy (PDict d) = true.
Proof.
  intros Hk. simpl. destruct (map_to_list d) eqn:E; [|done].
  apply map_to_list_empty_iff in E. subst d. by rewrite lookup_empty in Hk.
Qed.

Lemma is_provider_configured_shape config environ p entry :
  get_model_config config p = entry →
  entry_ok entry = true →
  is_provider_configured config environ p = Ok (key_set environ entry).
Proof.
  unfold is_provider_configured. intros -> Hok.
  destruct entry as [| | | | | |d]; try discriminate.
  unfold entry_ok, key_set in *.
  destruct (d !! "api_key_env") as [v|] eqn:E.
  - destruct v as [| | | |k| |]; try discriminate.
    rewrite (dict_truthy_lookup d _ _ E). cbn. rewrite E. cbn.
    destruct (String.eqb k EmptyString); cbn; [done|].
    by destruct (environ !! k).
  - destruct (truthy (PDict d)); cbn; [|done]. by rewrite E.
Qed.

Lemma key_set_declares environ entry :
  key_set environ entry = true ↔
  ∃ k, declares_key entry k ∧ is_Some (environ !! k).
Proof.
  unfold key_set, declares_key. split.
  - destruct entry as [| | | | | |d]; try discriminate.
    destruct (d !! "api_key_env") as [[| | | |k| |]|] eqn:E; try discriminate.
    intros [Hk Henv]%andb_prop. exists k. split.
    + exists d. repeat split; [done|].
      intros ->. by rewrite String.eqb_refl in Hk.
    + by destruct (environ !! k).
  - intros (k & (d & -> & E & Hk) & [v Hv]). rewrite E, Hv.
    apply String.eqb_neq in Hk. by rewrite Hk.
Qed.

Lemma collect_ok config environ providers items acc :
  get config "models.providers" (PDict ∅) = PDict providers →
  (∀ p e, (p, e) ∈ items →
          providers !! p = Some e ∧ dot_free p = true ∧ entry_ok e = true) →
  ∃ available,
    collect config environ items acc = Ok available ∧
    ∀ q, is_Some (available !! q) ↔
         is_Some (acc !! q) ∨ ∃ e, (q, e) ∈ items ∧ key_set environ e = true.
Proof.
  intros Hget. revert acc.
  induction items as [|[p e] items IH]; intros acc Hitems.
  - exists acc. split; [done|]. intros q. split; [by left|].
    intros [?|(e & He & _)]; [done|]. by apply elem_of_nil in He.
  - destruct (Hitems p e) as (Hp & Hdot & Hok); [by left|].
    assert (Hrest : ∀ p' e', (p', e') ∈ items →
              providers !! p' = Some e' ∧ dot_free p' = true ∧ entry_ok e' = true).
    { intros p' e' Hin. apply Hitems. by right. }
    cbn [collect].
    rewrite (is_provider_configured_shape config environ p e
               (get_model_config_entry _ _ _ _ Hget Hdot Hp) Hok).
    cbn. destruct (key_set environ e) eqn:Hks.
    + destruct e as [| | | | | |d]; try discriminate. cbn.
      destruct (IH (<[p := default (PList []) (d !! "models")]> acc) Hrest)
        as (available & Hc & Hav).
      exists available. split; [done|]. intros q. rewrite Hav.
      rewrite lookup_insert. split.
      * intros [Hq|(e' & He' & Hk')].
        -- case_decide as Hpq; [subst q|by left].
           right. exists (PDict d). split; [by left|done].
        -- right. exists e'. split; [by right|done].
      * intros [Hq|(e' & He' & Hk')].
        -- left. case_decide; [by eexists|done].
        -- apply elem_of_cons in He' as [[= -> ->]|He'].
           ++ left. case_decide; [by eexists|done].
           ++ right. by exists e'.
    + destruct (IH acc Hrest) as (available & Hc & Hav).
      exists available. split; [done|]. intros q. rewrite Hav. split.
      * intros [Hq|(e' & He' & Hk')]; [by left|].
        right. exists e'. split; [by right|done].
      * intros [Hq|(e' & He' & Hk')]; [by left|].
        apply elem_of_cons in He' as [[= -> ->]|He']; [congruence|].
        right. by exists e'.
Qed.

(** C7 (as amended).  For a catalog of the documented shape,
    [get_available_models] returns, and a provider of the catalog is among
    the available ones exactly when its entry declares a non-empty
    credential-lookup key and that key is set in the process environment
    at the time of the call, whatever its value (the empty string
    included). *)
Theorem available_iff_key_declared_and_set config environ providers :
  get config "models.providers" (PDict ∅) = PDict providers →
  catalog_ok providers = true →
  ∃ available,
    get_available_models config environ = Ok available ∧
    ∀ p entry, providers !! p = Some entry →
      (is_Some (available !! p) ↔
       ∃ k, declares_key entry k ∧ is_Some (environ !! k)).
Proof.
  intros Hget Hshape. unfold get_available_models. rewrite Hget. cbn.
  destruct (collect_ok config environ providers (map_to_list providers) ∅ Hget)
    as (available & Hc & Hav).
  { intros p e Hin. apply elem_of_map_to_list in Hin as Hp. split; [done|].
    unfold catalog_ok in Hshape.
    apply Is_true_true, forallb_True in Hshape.
    rewrite Forall_forall in Hshape. specialize (Hshape _ Hin).
    apply Is_true_true in Hshape. cbn in Hshape.
    by apply andb_prop in Hshape. }
  exists available. split; [done|]. intros p entry Hp.
  rewrite Hav, <- key_set_declares. split.
  - intros [Hq|(e & He & Hk)]; [by rewrite lookup_empty in Hq; destruct Hq|].
    apply elem_of_map_to_list in He. congruence.
  - intros Hk. right. exists entry. split; [|done].
    by apply elem_of_map_to_list.
Qed.

Lemma available_iff_key_declared_and_set_witness :
  get default_config "models.providers" (PDict ∅) = PDict default_providers ∧
  catalog_ok default_providers = true ∧
  ∃ available,
    get_available_models default_config {[ "OPENAI_API_KEY" := "sk-1" ]} = Ok available ∧
    ∀ p entry, default_providers !! p = Some entry →
      (is_Some (available !! p) ↔
       ∃ k, declares_key entry k ∧
            is_Some (({[ "OPENAI_API_KEY" := "sk-1" ]} : gmap string string) !! k)).
Proof.
  split; [by vm_compute|]. split; [by vm_compute|].
  apply (available_iff_key_declared_and_set default_config
           {[ "OPENAI_API_KEY" := "sk-1" ]} default_providers);
    by vm_compute.
Defined.

(** C7 fails as stated: with [OPENAI_API_KEY] set to the empty string the
    provider ["openai"] is listed, although its key does not resolve to a
    non-empty value. *)
Lemma empty_credential_is_listed :
  ∃ available entry,
    get_available_models default_config {[ "OPENAI_API_KEY" := EmptyString ]} = Ok available ∧
    default_providers !! "openai" = Some entry ∧
    is_Some (available !! "openai") ∧
    ¬ ∃ k v, declares_key entry k ∧
             ({[ "OPENAI_API_KEY" := EmptyString ]} : gmap string string) !! k = Some v ∧
             v ≠ EmptyString.
Proof.
  eexists _, _. split; [by vm_compute|]. split; [by vm_compute|].
  split; [by vm_compute; eexists|].
  intros (k & v & (d & [= <-] & Hk & _) & Hv & Hne).
  vm_compute in Hk. injection Hk as <-.
  vm_compute in Hv. by injection Hv as <-.
Qed.

End provider_catalog.

(** ** Building a runtime handle *)

Section handle_build.
Import AgentManager.

Lemma str_eq_true v s : str_eq v s = true ↔ v = PStr s.
Proof.
  destruct v; cbn; try (split; [discriminate|congruence]).
  rewrite String.eqb_eq. split; congruence.
Qed.

Lemma str_eq_false v s : v ≠ PStr s → str_eq v s = false.
Proof.
  intros Hne. destruct (str_eq v s) eqn:E; [|done].
  by apply str_eq_true in E.
Qed.

(** The provider test of [_get_model] reads the definition only. *)
Lemma _get_model_unsupported agent_config :
  let provider := cfg_get agent_config "model_provider" (PStr "openai") in
  provider ≠ PStr "openai" → provider ≠ PStr "anthropic" → provider ≠ PStr "gemini" →
  _get_model agent_config = Raise (UnsupportedProvider provider).
Proof.
  intros provider H1 H2 H3. unfold _get_model. fold provider.
  by rewrite !str_eq_false.
Qed.

(** C8 (as amended).  Building a handle for a definition whose provider is
    none of the built-in names "openai", "anthropic" and "gemini" fails
    with the unsupported-provider error (wrapped by
    [create_agent_instance]) and produces no handle; the set of
    credentialed providers is not consulted. *)
Theorem unknown_provider_is_rejected agent_config :
  let provider := cfg_get agent_config "model_provider" (PStr "openai") in
  provider ≠ PStr "openai" → provider ≠ PStr "anthropic" → provider ≠ PStr "gemini" →
  create_agent_instance agent_config
  = Raise (FailedToCreate (UnsupportedProvider provider)).
Proof.
  intros provider H1 H2 H3. unfold create_agent_instance.
  by rewrite (_get_model_unsupported agent_config H1 H2 H3).
Qed.

Lemma unknown_provider_is_rejected_witness :
  create_agent_instance {[ "model_provider" := PStr "local" ]}
  = Raise (FailedToCreate (UnsupportedProvider (PStr "local"))).
Proof.
  refine (eq_trans
            (unknown_provider_is_rejected {[ "model_provider" := PStr "local" ]} _ _ _)
            _);
    by vm_compute.
Defined.

(** C8 fails as stated: with no credential in the environment no provider
    is available, and a handle for an "openai" definition is built all
    the same. *)
Lemma uncredentialed_provider_gets_a_handle :
  Settings.get_available_models ConfigManager.default_config ∅ = Ok ∅ ∧
  ∃ agent, create_agent_instance (App.dict Scenario.draft_A) = Ok agent.
Proof.
  split; [by vm_compute|]. eexists. by vm_compute.
Qed.

End handle_build.

(** ** Conversation ledger *)

Section ledger.
Import Database.

Ltac run_db :=
  unfold save_conversation, _update_agent_stats, cleanup_old_data, log_system_event,
    get_conversation_history, get_conversation_history_body,
    get_agent_stats, get_agent_stats_body,
    get_total_conversations, get_total_conversations_body,
    try_except, cursor, execute_write, execute_select, fetch, commit, print,
    storage, mbind, M_bind, mret, M_ret, inject;
  cbn.

(** C3 (as amended).  When a storage failure occurs at any storage step
    of an append (between the exchange write and the stats update and at
    commit included), the call commits nothing: what is durably recorded
    is the same after the call as before it.  The failure is not surfaced:
    the call prints a message and returns normally. *)
Theorem failed_append_commits_nothing agent user_msg agent_msg now c out n :
  (n < 7)%nat →
  ∃ c',
    save_conversation agent user_msg agent_msg now (mk (Some c) (Some n) out)
    = (Ok tt, mk (Some c') None (out ++ [Error_saving_conversation StorageError])) ∧
    durable c' = durable c.
Proof.
  intros Hn. run_db. unfold select_stats, insert_conversation. cbn.
  do 7 (destruct n as [|n]; [cbn; try destruct (agent_stats _ !! agent); cbn;
                             by eexists|]).
  lia.
Qed.

Lemma failed_append_commits_nothing_witness :
  ∃ c',
    save_conversation "id-A" Scenario.msg_u Scenario.msg_a 100
      (mk (Some (mkConn no_tables no_tables)) (Some 2%nat) [])
    = (Ok tt, mk (Some c') None ([] ++ [Error_saving_conversation StorageError])) ∧
    durable c' = durable (mkConn no_tables no_tables).
Proof.
  apply (failed_append_commits_nothing "id-A" Scenario.msg_u Scenario.msg_a 100
           (mkConn no_tables no_tables) [] 2).
  lia.
Defined.

(** C3 fails as stated: a failure between the exchange write and the
    stats update is swallowed (the call returns normally), the exchange
    stays in the open transaction, and the next successful commit on the
    connection, here of [log_system_event], records the exchange durably
    without any stats row. *)
Lemma failed_append_is_committed_later :
  ∃ db1 db2 c2 row,
    save_conversation "id-A" Scenario.msg_u Scenario.msg_a 100 (inject 2 Scenario.db0)
    = (Ok tt, db1) ∧
    log_system_event "INFO" "started" None 101 db1 = (Ok tt, db2) ∧
    connection db2 = Some c2 ∧
    conversations (durable c2) = [row] ∧
    agent_id row = "id-A" ∧
    agent_stats (durable c2) !! "id-A" = None.
Proof.
  eexists _, _, _, _. repeat split; by vm_compute.
Qed.

Lemma filter_keeps_or_older {A} (ts : A → Z) (cut : option Z) (l : list A) r :
  r ∈ l →
  r ∈ List.filter (λ r, negb (older_than cut (ts r))) l ∨
  older_than cut (ts r) = true.
Proof.
  intros Hin. destruct (older_than cut (ts r)) eqn:E; [by right|left].
  apply list_elem_of_In, filter_In. split; [by apply list_elem_of_In|].
  by rewrite E.
Qed.

Lemma filter_sub {A} (f : A → bool) (l : list A) r :
  r ∈ List.filter f l → r ∈ l.
Proof.
  intros Hin. apply list_elem_of_In in Hin. apply filter_In in Hin as [Hin _].
  by apply list_elem_of_In.
Qed.

(** C9.  Whatever [days] is, and whether or not a storage step fails, the
    purge returns normally, leaves the [agent_stats] table of the
    connection unchanged, and removes from [conversations] and
    [system_logs] only rows older than the cutoff.  (Its commit publishes
    the transaction that was open, so the committed stats table is either
    what was committed before or what the connection already saw.) *)
Theorem purge_leaves_stats days now c f out :
  ∃ c' f' out',
    cleanup_old_data days now (mk (Some c) f out) = (Ok tt, mk (Some c') f' out') ∧
    agent_stats (view c') = agent_stats (view c) ∧
    (agent_stats (durable c') = agent_stats (durable c) ∨
     agent_stats (durable c') = agent_stats (view c)) ∧
    (∀ r, r ∈ conversations (view c') → r ∈ conversations (view c)) ∧
    (∀ r, r ∈ conversations (view c) →
          r ∈ conversations (view c') ∨
          older_than (cutoff now days) (created_at r) = true) ∧
    (∀ r, r ∈ system_logs (view c') → r ∈ system_logs (view c)) ∧
    (∀ r, r ∈ system_logs (view c) →
          r ∈ system_logs (view c') ∨
          older_than (cutoff now days) (log_timestamp r) = true).
Proof.
  run_db.
  destruct f as [n|]; [do 4 (try destruct n as [|n])|]; cbn;
    eexists _, _, _; (split; [reflexivity|]); cbn;
    repeat split;
    first [ by left | by right
          | intros r Hr;
            first [ by left | assumption
                  | exact (filter_sub _ _ _ Hr)
                  | exact (filter_keeps_or_older created_at _ _ _ Hr)
                  | exact (filter_keeps_or_older log_timestamp _ _ _ Hr) ] ].
Qed.

(** Without a failure the purge removes exactly the old rows. *)
Lemma purge_removes_old days now c out :
  ∃ c',
    cleanup_old_data days now (mk (Some c) None out)
    = (Ok tt, mk (Some c') None (out ++ [Cleaned_up_data_older_than days])) ∧
    durable c' = view c' ∧
    view c' = delete_old_logs (cutoff now days)
                (delete_old_conversations (cutoff now days) (view c)).
Proof. run_db. by eexists. Qed.

(** A failure injected in one of the three storage steps of a read makes
    its [try] block raise; so does a missing connection object. *)
Lemma read_bodies_raise agent limit c out n :
  (n < 3)%nat →
  let db := mk (Some c) (Some n) out in
  let db' := mk (Some c) None out in
  get_conversation_history_body agent limit db = (Raise StorageError, db') ∧
  get_agent_stats_body agent db = (Raise StorageError, db') ∧
  get_total_conversations_body db = (Raise StorageError, db').
Proof.
  intros Hn. run_db.
  do 3 (destruct n as [|n]; [by cbn|]). lia.
Qed.

(** C10.  In every state of the database object (connected or not, with
    or without a failure injected) the three reads return and never
    raise; whenever the [try] block of a read raises, as it does when one
    of its storage steps fails, the read returns the empty list, the
    absent value and 0 respectively; and these are the very answers an
    empty database gives. *)
Theorem ledger_reads_never_raise agent limit db :
  (∃ l, fst (get_conversation_history agent limit db) = Ok l) ∧
  (∃ s, fst (get_agent_stats agent db) = Ok s) ∧
  (∃ n, fst (get_total_conversations db) = Ok n) ∧
  (∀ e db', get_conversation_history_body agent limit db = (Raise e, db') →
            fst (get_conversation_history agent limit db) = Ok []) ∧
  (∀ e db', get_agent_stats_body agent db = (Raise e, db') →
            fst (get_agent_stats agent db) = Ok None) ∧
  (∀ e db', get_total_conversations_body db = (Raise e, db') →
            fst (get_total_conversations db) = Ok 0) ∧
  (∀ c out n, (n < 3)%nat →
     fst (get_conversation_history agent limit (mk (Some c) (Some n) out)) = Ok [] ∧
     fst (get_agent_stats agent (mk (Some c) (Some n) out)) = Ok None ∧
     fst (get_total_conversations (mk (Some c) (Some n) out)) = Ok 0) ∧
  fst (get_conversation_history agent limit (init_db no_tables new)) = Ok [] ∧
  fst (get_agent_stats agent (init_db no_tables new)) = Ok None ∧
  fst (get_total_conversations (init_db no_tables new)) = Ok 0.
Proof.
  split; [|split; [|split; [|split; [|split; [|split; [|split; [|repeat split]]]]]]].
  - unfold get_conversation_history, try_except.
    destruct (get_conversation_history_body agent limit db) as [[l|e] db'];
      by eexists.
  - unfold get_agent_stats, try_except.
    destruct (get_agent_stats_body agent db) as [[l|e] db']; by eexists.
  - unfold get_total_conversations, try_except.
    destruct get_total_conversations_body as [[l|e] db']; by eexists.
  - intros e db' Hbody. unfold get_conversation_history, try_except.
    by rewrite Hbody.
  - intros e db' Hbody. unfold get_agent_stats, try_except. by rewrite Hbody.
  - intros e db' Hbody. unfold get_total_conversations, try_except.
    by rewrite Hbody.
  - intros c out n Hn.
    destruct (read_bodies_raise agent limit c out n Hn) as (Hh & Hs & Ht).
    unfold get_conversation_history, get_agent_stats, get_total_conversations,
      try_except.
    by rewrite Hh, Hs, Ht.
  - run_db. unfold select_history, sql_limit. cbn.
    destruct (limit <? 0); [done|]. by rewrite take_nil.
Qed.

Lemma ledger_reads_never_raise_witness :
  fst (get_conversation_history "id-A" 50 (inject 1 Scenario.db0)) = Ok [] ∧
  fst (get_agent_stats "id-A" (inject 1 Scenario.db0)) = Ok None ∧
  fst (get_total_conversations (inject 1 Scenario.db0)) = Ok 0.
Proof.
  destruct (ledger_reads_never_raise "id-A" 50 (inject 1 Scenario.db0))
    as (_ & _ & _ & Hh & Hs & Ht & _).
  split; [|split].
  - eapply Hh. vm_compute. reflexivity.
  - eapply Hs. vm_compute. reflexivity.
  - eapply Ht. vm_compute. reflexivity.
Defined.

End ledger.

(** ** Agent definitions *)

Section definitions_store.
Import App.

(** C4 (as amended).  [create] checks none of the constraints: for every
    draft it returns the identity drawn by the UUID generator, and the
    definition stored in the cache and on disk under that identity carries
    the draft's fields as given, the identity and the two time stamps;
    no other definition changes. *)
Theorem create_stores_any_draft uuid4 now1 now2 draft app :
  ∃ app' stored,
    create_agent uuid4 now1 now2 draft app = (Ok uuid4, app') ∧
    AgentManager.get_agent uuid4 (agent_manager app') = Some stored ∧
    AgentManager.agents_dir (agent_manager app') !! uuid4 = Some stored ∧
    stored !! "id" = Some (PStr uuid4) ∧
    stored !! "created_at" = Some (PStr now1) ∧
    stored !! "updated_at" = Some (PStr now2) ∧
    stored !! "name" = Some (PStr (name draft)) ∧
    stored !! "description" = Some (PStr (description draft)) ∧
    stored !! "system_prompt" = Some (PStr (system_prompt draft)) ∧
    stored !! "model_provider" = Some (PStr (model_provider draft)) ∧
    stored !! "model_name" = Some (PStr (model_name draft)) ∧
    stored !! "temperature" = Some (PFloat (temperature draft)) ∧
    stored !! "max_tokens" = Some (PInt (max_tokens draft)) ∧
    stored !! "tools" = Some (PList (PStr <$> tools draft)) ∧
    stored !! "enabled" = Some (PBool (enabled draft)) ∧
    (∀ other, other ≠ uuid4 →
       AgentManager.get_agent other (agent_manager app')
       = AgentManager.get_agent other (agent_manager app) ∧
       AgentManager.agents_dir (agent_manager app') !! other
       = AgentManager.agents_dir (agent_manager app) !! other) ∧
    database app' = database app ∧
    active_agents app' = active_agents app.
Proof.
  eexists _, _. split; [reflexivity|].
  unfold AgentManager.get_agent. cbn.
  split; [by rewrite lookup_insert_eq|].
  split; [by rewrite lookup_insert_eq|].
  do 12 (split; [by vm_compute|]).
  split; [|done]. intros other Hne. by rewrite !lookup_insert_ne.
Qed.

(** C4 fails as stated: a draft with empty name, prompt, provider and
    model, temperature 5 and max tokens 0 is created and persisted. *)
Lemma invalid_draft_is_created :
  ∃ app' stored,
    create_agent "id-B" "t0" "t0'" Scenario.bad_draft Scenario.app0 = (Ok "id-B", app') ∧
    AgentManager.agents_dir (agent_manager app') !! "id-B" = Some stored ∧
    stored !! "name" = Some (PStr EmptyString) ∧
    stored !! "system_prompt" = Some (PStr EmptyString) ∧
    stored !! "model_provider" = Some (PStr EmptyString) ∧
    stored !! "model_name" = Some (PStr EmptyString) ∧
    stored !! "temperature" = Some (PFloat (5 # 1)) ∧
    stored !! "max_tokens" = Some (PInt 0).
Proof.
  eexists _, _. repeat split; by vm_compute.
Qed.

End definitions_store.

(** ** Runtime session cache and dispatch *)

Section dispatch.
Import App.
Variable run : AgentManager.Agent → string → result RunResult.

(** The update path never touches [active_agents]. *)
Lemma update_agent_keeps_active_agents now agent_id draft app :
  active_agents (snd (update_agent now agent_id draft app)) = active_agents app.
Proof.
  unfold update_agent, AgentManager.update_agent.
  by destruct (AgentManager.agents_cache (agent_manager app) !! agent_id).
Qed.

Lemma toggle_agent_keeps_active_agents now agent_id app :
  active_agents (snd (toggle_agent now agent_id app)) = active_agents app.
Proof.
  unfold toggle_agent, AgentManager.get_agent, AgentManager.update_agent.
  destruct (AgentManager.agents_cache (agent_manager app) !! agent_id) as [cfg|];
    [|done].
  destruct (negb (dict_truthy cfg)); [done|]. cbn.
  by rewrite lookup_insert_eq.
Qed.

(** The delete path does evict the handle. *)
Lemma delete_agent_evicts agent_id app app' :
  delete_agent agent_id app = (Ok tt, app') →
  active_agents app' !! agent_id = None.
Proof.
  unfold delete_agent, AgentManager.delete_agent.
  destruct (AgentManager.agents_cache (agent_manager app) !! agent_id);
    intros [= <-]; cbn. apply lookup_delete_eq.
Qed.

(** A cached handle is returned without looking at the definition. *)
Lemma get_or_create_instance_cached agent_id app agent :
  active_agents app !! agent_id = Some agent →
  get_or_create_instance agent_id app = (Ok agent, app).
Proof. unfold get_or_create_instance. by intros ->. Qed.

(** Called one after the other, two lookups of the same identity share one
    handle: the second finds what the first stored and constructs nothing. *)
Lemma get_or_create_instance_reuses agent_id app agent app' :
  get_or_create_instance agent_id app = (Ok agent, app') →
  get_or_create_instance agent_id app' = (Ok agent, app').
Proof.
  unfold get_or_create_instance at 1.
  destruct (active_agents app !! agent_id) as [cached|] eqn:Hc.
  - intros [= <- <-]. by apply get_or_create_instance_cached.
  - destruct (AgentManager.get_agent agent_id (agent_manager app)) as [cfg|];
      [|discriminate].
    destruct (negb (dict_truthy cfg)); [discriminate|].
    destruct (negb (truthy _)); [discriminate|].
    destruct (AgentManager.create_agent_instance cfg) as [built|e]; [|discriminate].
    intros [= <- <-]. apply get_or_create_instance_cached. cbn.
    apply lookup_insert_eq.
Qed.

(** Without a cached handle, a disabled definition is refused and nothing
    changes. *)
Lemma chat_disabled_not_cached t_user t_agent now chat_message app agent_config :
  active_agents app !! agent_id chat_message = None →
  AgentManager.get_agent (agent_id chat_message) (agent_manager app) = Some agent_config →
  dict_truthy agent_config = true →
  truthy (AgentManager.cfg_get agent_config "enabled" (PBool false)) = false →
  chat_with_agent run t_user t_agent now chat_message app
  = (ChatFailure (HTTPException 400 "Agent is disabled"), app).
Proof.
  intros Hcache Hget Hne Hen.
  unfold chat_with_agent, get_or_create_instance.
  by rewrite Hcache, Hget, Hne, Hen.
Qed.

End dispatch.

Section dispatch_runs.
Import App Scenario.

(** C1, evaluated on the failing run: A is created with the prompt
    "old prompt" and answers once, so its handle is cached; A's prompt is
    then updated to "new prompt".  The stored definition has the new
    prompt, the cached handle still has the old one, and the next message
    is answered by that stale handle. *)
Lemma stale_handle_served_after_update :
  (cfg ← AgentManager.get_agent "id-A" (agent_manager app3); cfg !! "system_prompt")
  = Some (PStr "new prompt") ∧
  AgentManager.system_prompt <$> active_agents app3 !! "id-A"
  = Some (PStr "old prompt") ∧
  fst (chat_with_agent echo_run "t4" "t5" 200 hello app3)
  = ChatSuccess "old prompt" (Some {[ "total_tokens" := 7 ]}).
Proof. repeat split; by vm_compute. Qed.

(** C2, evaluated on the failing run: A answers once, so its handle is
    cached; A is then disabled.  The next message is answered and a second
    exchange is appended to the ledger. *)
Lemma disabled_agent_with_cached_handle_answers :
  fst (toggle_agent "t3" "id-A" app2) = Ok false ∧
  (cfg ← AgentManager.get_agent "id-A" (agent_manager app3'); cfg !! "enabled")
  = Some (PBool false) ∧
  fst (chat_with_agent echo_run "t4" "t5" 200 hello app3')
  = ChatSuccess "old prompt" (Some {[ "total_tokens" := 7 ]}) ∧
  length (ledger app3') = 1%nat ∧
  length (ledger (snd (chat_with_agent echo_run "t4" "t5" 200 hello app3'))) = 2%nat.
Proof. repeat split; by vm_compute. Qed.

End dispatch_runs.

(** ** Configuration documents: [set], [get] and the file *)

Section configuration.
Import ConfigManager.

Lemma split_on_nonempty sep s : split_on sep s ≠ [].
Proof.
  destruct s as [|c s]; cbn; [done|].
  destruct (Ascii.eqb c sep); [done|]. by destruct (split_on sep s).
Qed.

Lemma split_on_init_last key :
  split_on "." key
  = (removelast (split_on "." key) ++ [List.last (split_on "." key) EmptyString])%list.
Proof. apply app_removelast_last, split_on_nonempty. Qed.

Lemma set_in_get path last config value config' dflt :
  set_in path last config value = (Ok tt, config') →
  walk (path ++ [last]) config' dflt = value.
Proof.
  revert config config'. induction path as [|k ks IH]; intros config config'; cbn.
  - destruct config; try discriminate. intros [= <-]. cbn.
    by rewrite lookup_insert_eq.
  - destruct config as [| | | | | |d]; try discriminate.
    destruct (set_in ks last (default (PDict ∅) (d !! k)) value) as [r child'] eqn:E.
    intros [= -> <-]. cbn. rewrite lookup_insert_eq. by eapply IH.
Qed.

Lemma set_in_empty_ok path last value :
  ∃ config', set_in path last (PDict ∅) value = (Ok tt, config').
Proof.
  induction path as [|k ks [child' IH]]; cbn; [by eexists|].
  rewrite lookup_empty. cbn. rewrite IH. by eexists.
Qed.

Lemma set_in_raise path last config value e config' :
  set_in path last config value = (Raise e, config') →
  e = TypeError ∧ config' = config.
Proof.
  revert config config'. induction path as [|k ks IH]; intros config config'; cbn.
  - destruct config; intros [= <- <-]; done.
  - destruct config as [| | | | | |d]; try (intros [= <- <-]; done).
    destruct (d !! k) as [child|] eqn:Hk; cbn.
    + destruct (set_in ks last child value) as [r child'] eqn:E.
      intros [= -> <-]. destruct (IH _ _ E) as [-> ->].
      split; [done|]. by rewrite insert_id.
    + destruct (set_in_empty_ok ks last value) as [child' ->]. discriminate.
Qed.

Lemma set_in_ok_truthy path last config value config' :
  set_in path last config value = (Ok tt, config') → truthy config' = true.
Proof.
  destruct path as [|k ks]; cbn; destruct config as [| | | | | |d]; try discriminate.
  - intros [= <-]. eapply (dict_truthy_lookup _ last). apply lookup_insert_eq.
  - destruct (set_in ks last _ value) as [r child']. intros [= -> <-].
    eapply (dict_truthy_lookup _ k). apply lookup_insert_eq.
Qed.

(** X1.  A value that [set] stored under a key is what [get] returns for
    that key, whatever the default. *)
Theorem set_then_get writable key value cm cm' dflt :
  set writable key value cm = (Ok tt, cm') →
  get (config cm') key dflt = value.
Proof.
  unfold set, get.
  destruct (set_in _ _ (config cm) value) as [[[]|e] doc] eqn:E; [|discriminate].
  intros [= <-]. rewrite split_on_init_last.
  replace (config (save_config writable (mk doc (config_file cm)))) with doc
    by (by destruct writable).
  by eapply set_in_get.
Qed.

Lemma set_then_get_witness :
  get (config (snd (set true "ui.theme" (PStr "dark") (mk default_config None))))
      "ui.theme" PNone
  = PStr "dark".
Proof.
  apply (set_then_get true "ui.theme" (PStr "dark") (mk default_config None)).
  by vm_compute.
Defined.

(** X2.  When the file can be written, a value stored by [set] is read back
    by a manager constructed afterwards from that file. *)
Theorem set_survives_reload writable key value cm cm' dflt :
  set true key value cm = (Ok tt, cm') →
  get (config (load_config writable (config_file cm'))) key dflt = value.
Proof.
  intros Hset. rewrite <- (set_then_get true key value cm cm' dflt Hset).
  f_equal. revert Hset. unfold set.
  destruct (set_in _ _ (config cm) value) as [[[]|e] doc] eqn:E; [|discriminate].
  intros [= <-]. cbn. by rewrite (set_in_ok_truthy _ _ _ _ _ E).
Qed.

Lemma set_survives_reload_witness :
  get (config (load_config false
         (config_file (snd (set true "app.port" (PInt 9000) (mk default_config None))))))
      "app.port" PNone
  = PInt 9000.
Proof.
  apply (set_survives_reload false "app.port" (PInt 9000) (mk default_config None)).
  by vm_compute.
Defined.

(** X3.  [set] raises only a [TypeError] (a non-dict value stands where a
    dict is needed), and then neither the document nor the file has
    changed. *)
Theorem set_failure_changes_nothing writable key value cm e cm' :
  set writable key value cm = (Raise e, cm') →
  e = TypeError ∧ cm' = cm.
Proof.
  unfold set.
  destruct (set_in _ _ (config cm) value) as [[[]|e'] doc] eqn:E; [discriminate|].
  intros [= <- <-]. destruct (set_in_raise _ _ _ _ _ _ E) as [-> ->].
  by destruct cm.
Qed.

Lemma set_failure_changes_nothing_witness :
  TypeError = TypeError ∧
  snd (set true "app.name.short" (PStr "x") (mk default_config None))
  = mk default_config None.
Proof.
  apply (set_failure_changes_nothing true "app.name.short" (PStr "x")
           (mk default_config None) TypeError).
  by vm_compute.
Defined.

End configuration.

(** ** What the provider catalog can list *)

Section catalog_soundness.
Import ConfigManager Settings.

Lemma is_provider_configured_true config environ p :
  is_provider_configured config environ p = Ok true →
  ∃ k, is_Some (environ !! k).
Proof.
  unfold is_provider_configured.
  destruct (negb (truthy (get_model_config config p))); [discriminate|].
  destruct (py_get _ "api_key_env" PNone) as [key|e]; cbn; [|discriminate].
  destruct (negb (truthy key)); [discriminate|].
  destruct key as [| | | |k| |]; cbn; try discriminate.
  destruct (environ !! k) eqn:E; cbn; [|discriminate]. intros _. by exists k.
Qed.

Lemma collect_sound config environ items acc available :
  collect config environ items acc = Ok available →
  ∀ q, is_Some (available !! q) →
       is_Some (acc !! q) ∨
       ((∃ e, (q, e) ∈ items) ∧ is_provider_configured config environ q = Ok true).
Proof.
  revert acc. induction items as [|[p e] items IH]; intros acc; cbn.
  - intros [= <-] q Hq. by left.
  - destruct (is_provider_configured config environ p) as [[|]|err] eqn:Hp; cbn;
      [|by intros H q Hq; destruct (IH _ H q Hq) as [?|[[e' ?] ?]];
           [left|right; split; [exists e'; by right|]]
       |discriminate].
    destruct (py_get e "models" (PList [])) as [models|err]; cbn; [|discriminate].
    intros H q Hq. destruct (IH _ H q Hq) as [Hacc|[[e' He'] Hc]].
    + rewrite lookup_insert in Hacc. case_decide as Hpq; [subst q|by left].
      right. split; [exists e; by left|done].
    + right. split; [exists e'; by right|done].
Qed.

(** X5.  Whatever the shape of the document, a provider that
    [get_available_models] lists is one of the catalog's providers, and
    [is_provider_configured] answers [True] for it. *)
Theorem available_are_configured_catalog_entries config environ available p :
  get_available_models config environ = Ok available →
  is_Some (available !! p) →
  (∃ providers, get_available_providers config = Ok providers ∧ p ∈ providers) ∧
  is_provider_configured config environ p = Ok true.
Proof.
  unfold get_available_models, get_available_providers.
  destruct (get config "models.providers" (PDict ∅)) as [| | | | | |d];
    cbn; try discriminate.
  intros Hc Hp. destruct (collect_sound _ _ _ _ _ Hc p Hp) as [Hacc|[[e He] Hconf]].
  { rewrite lookup_empty in Hacc. by destruct Hacc. }
  split; [|done]. eexists. split; [done|].
  apply list_elem_of_fmap. by exists (p, e).
Qed.

Lemma available_are_configured_catalog_entries_witness :
  (∃ providers, get_available_providers default_config = Ok providers ∧
                "gemini" ∈ providers) ∧
  is_provider_configured default_config {[ "GEMINI_API_KEY" := "k" ]} "gemini" = Ok true.
Proof.
  destruct (get_available_models default_config {[ "GEMINI_API_KEY" := "k" ]})
    as [available|] eqn:E; [|by vm_compute in E].
  apply (available_are_configured_catalog_entries default_config
           {[ "GEMINI_API_KEY" := "k" ]} available "gemini" E).
  vm_compute in E. injection E as <-. by vm_compute; eexists.
Defined.

(** X6.  With no variable in the process environment no provider is ever
    listed: [get_available_models] returns the empty dict or raises. *)
Theorem nothing_available_without_environment config available :
  get_available_models config ∅ = Ok available → available = ∅.
Proof.
  unfold get_available_models.
  destruct (get config "models.providers" (PDict ∅)) as [| | | | | |d];
    cbn; try discriminate.
  intros Hc. apply map_eq. intros q. rewrite lookup_empty.
  destruct (available !! q) as [v|] eqn:Hq; [|done].
  destruct (collect_sound _ _ _ _ _ Hc q) as [Hacc|[_ Hconf]]; [by eexists| |].
  - rewrite lookup_empty in Hacc. by destruct Hacc.
  - apply is_provider_configured_true in Hconf as [k Hk].
    rewrite lookup_empty in Hk. by destruct Hk.
Qed.

Lemma nothing_available_without_environment_witness :
  ∃ available, get_available_models default_config ∅ = Ok available ∧ available = ∅.
Proof.
  eexists. split; [by vm_compute|].
  apply (nothing_available_without_environment default_config). by vm_compute.
Defined.

End catalog_soundness.

(** ** Loading definitions, tools and templates *)

Section loading.
Import AgentManager Derived.

(** X10.  Definitions survive a restart: when cache and disk agree and no
    identity starts with "template_", a new manager that loads the directory
    has the same cache. *)
Theorem load_agents_restores_cache m :
  agents_cache m = agents_dir m →
  (∀ agent_id, is_Some (agents_dir m !! agent_id) → is_template_file agent_id = false) →
  agents_cache (load_agents (mk ∅ (agents_dir m))) = agents_cache m.
Proof.
  intros Hsync Hnames. unfold load_agents. cbn.
  rewrite (right_id_L ∅ (∪)), Hsync.
  apply map_filter_id. intros i x Hi.
  change (is_template_file i = false). apply Hnames. by eexists.
Qed.

Lemma load_agents_restores_cache_witness :
  let m := snd (create_agent "id-Z" "t0" "t0" ∅ empty) in
  agents_cache (load_agents (mk ∅ (agents_dir m))) = agents_cache m.
Proof.
  apply (load_agents_restores_cache (snd (create_agent "id-Z" "t0" "t0" ∅ empty))).
  - reflexivity.
  - intros agent_id [x Hx]. destruct (decide (agent_id = "id-Z")) as [->|Hne].
    + by vm_compute.
    + exfalso. cbn in Hx. rewrite lookup_insert_ne in Hx by done.
      by rewrite lookup_empty in Hx.
Defined.

Lemma _get_tool_function_str s : _get_tool_function (PStr s) = Ok (tool_named s).
Proof. done. Qed.

Lemma add_tools_strings names agent :
  add_tools (PStr <$> names) agent
  = Ok (mkAgent (model agent) (system_prompt agent)
                (tools agent ++ omap tool_named names)).
Proof.
  revert agent. induction names as [|s names IH]; intros agent.
  - cbn. rewrite app_nil_r. by destruct agent.
  - rewrite fmap_cons. cbn [add_tools]. rewrite _get_tool_function_str.
    change (omap tool_named (s :: names))
      with (match tool_named s with
            | Some y => y :: omap tool_named names
            | None => omap tool_named names
            end).
    unfold mbind, result_bind.
    destruct (tool_named s) as [f|]; rewrite IH; cbn; [|done].
    by rewrite <- app_assoc.
Qed.

(** X12.  For a definition with a supported provider whose ["tools"] is a
    list of names, the handle is built with the tools the names resolve to,
    in the order given; names outside the registry are dropped without an
    error. *)
Theorem tools_resolved_in_order agent_config m names :
  _get_model agent_config = Ok m →
  agent_config !! "tools" = Some (PList (PStr <$> names)) →
  create_agent_instance agent_config
  = Ok (mkAgent m (cfg_get agent_config "system_prompt"
                     (PStr "You are a helpful AI assistant."))
               (omap tool_named names)).
Proof.
  intros Hm Htools. unfold create_agent_instance, cfg_get.
  rewrite Hm, Htools. cbn. by rewrite add_tools_strings.
Qed.

Lemma tools_resolved_in_order_witness :
  tools <$> match create_agent_instance
                    (<["tools" := PList (PStr <$> ["calculator"; "telepathy"; "web_search"])]>
                       (App.dict Scenario.draft_A)) with
            | Ok a => Some a
            | Raise _ => None
            end
  = Some [_calculator_tool; _web_search_tool].
Proof.
  destruct (_get_model (<["tools" := PList (PStr <$> ["calculator"; "telepathy"; "web_search"])]>
                          (App.dict Scenario.draft_A))) as [m|] eqn:E;
    [|by vm_compute in E].
  rewrite (tools_resolved_in_order _ m ["calculator"; "telepathy"; "web_search"] E);
    by vm_compute.
Defined.

Lemma add_tools_chars s agent :
  add_tools ((λ c, PStr (String c EmptyString)) <$> list_ascii_of_string s) agent
  = Ok agent.
Proof.
  induction s as [|c s IH]; [done|].
  cbn [list_ascii_of_string fmap list_fmap add_tools]. cbn.
  destruct (Ascii.eqb c "w"), (Ascii.eqb c "c"), (Ascii.eqb c "f"); exact IH.
Qed.

(** X13.  When ["tools"] holds a single string instead of a list, the loop
    runs over its characters, none of which names a tool: the handle is
    built without any tool, also when the string is a tool's name. *)
Theorem tools_given_as_string_are_ignored agent_config m s :
  _get_model agent_config = Ok m →
  agent_config !! "tools" = Some (PStr s) →
  create_agent_instance agent_config
  = Ok (mkAgent m (cfg_get agent_config "system_prompt"
                     (PStr "You are a helpful AI assistant."))
               []).
Proof.
  intros Hm Htools. unfold create_agent_instance, cfg_get.
  rewrite Hm, Htools. cbn. by rewrite add_tools_chars.
Qed.

Lemma tools_given_as_string_are_ignored_witness :
  tools <$> match create_agent_instance
                    (<["tools" := PStr "calculator"]> (App.dict Scenario.draft_A)) with
            | Ok a => Some a
            | Raise _ => None
            end
  = Some [].
Proof.
  destruct (_get_model (<["tools" := PStr "calculator"]> (App.dict Scenario.draft_A)))
    as [m|] eqn:E; [|by vm_compute in E].
  rewrite (tools_given_as_string_are_ignored _ m "calculator" E); by vm_compute.
Defined.

End loading.

(** ** Templates *)

Section templates.
Import AgentManager.




End templates.

(** ** Counters of the stats table in SQLite's arithmetic *)

Section counters.
Import Ledger.

(** C6 (as amended).  For every append on a live connection, when the
    usage's total tokens is an integer of the signed 64-bit range (0 when
    usage or the entry is absent) and the prior stats row, if there is one,
    holds integers that one more conversation and these tokens still keep
    in that range: the append returns normally and commits; the stats row of
    the agent has its conversation count incremented by 1, its token count
    incremented by those tokens and its last-used time set to now; without a
    prior row, the row is created with count 1 and that token count.  The
    rows of other agents are unchanged.  (The row sequences of the two
    tables are supposed not to be exhausted.) *)
Theorem append_counts_within_int64 agent user_msg agent_msg now c out tokens :
  tokens_used (usage agent_msg) = Some tokens →
  in_int64 tokens = true →
  prior_fits (agent_stats (view c) !! agent) tokens = true →
  sequences_fit (view c) agent = true →
  ∃ c',
    save_conversation agent user_msg agent_msg now (mk (Some c) out)
    = (Done tt, mk (Some c') out) ∧
    durable c' = view c' ∧
    agent_stats (view c') !! agent
    = Some (match agent_stats (view c) !! agent with
            | Some r => mkStats (Integer (int_of (total_conversations r) + 1))
                                (Integer (int_of (total_tokens_used r) + tokens))
                                now (stats_created_at r) now
            | None => mkStats (Integer 1) (Integer tokens) now now now
            end) ∧
    (∀ other, other ≠ agent →
              agent_stats (view c') !! other = agent_stats (view c) !! other) ∧
    conversations (view c')
    = (conversations (view c) ++
       [mkExchange (conversations_seq (view c) + 1) agent
          (content user_msg) (content agent_msg)
          (timestamp user_msg) (timestamp agent_msg)
          (if usage_truthy (usage agent_msg) then usage agent_msg else None)
          now])%list.
Proof.
  intros Htokens Hrange Hprior [Hconv Hstats]%andb_prop.
  unfold save_conversation, _update_agent_stats, try_except, cursor,
    execute_select, fetch, commit, execute_bound, execute_write, on_connection,
    print, mbind, M_bind, mret, M_ret, select_stats, insert_conversation.
  cbn -[has_next in_int64 add store]. rewrite Hconv.
  cbn -[has_next in_int64 add store]. rewrite Htokens.
  unfold bind. rewrite Hrange.
  destruct (agent_stats (view c) !! agent) as [r|] eqn:E;
    cbn -[has_next in_int64 add store].
  - unfold prior_fits in Hprior.
    destruct (total_conversations r) as [|n|] eqn:Hn; try discriminate.
    destruct (total_tokens_used r) as [|k|] eqn:Hk; try discriminate.
    apply andb_prop in Hprior as [H1 H2].
    eexists. split; [reflexivity|]. split; [reflexivity|].
    unfold update_stats. cbn [view agent_stats conversations].
    split.
    + rewrite lookup_alter_eq, E. cbn [fmap option_fmap option_map].
      rewrite Hn, Hk. unfold add. rewrite H1, H2. reflexivity.
    + split; [|reflexivity]. intros other Hne. by rewrite lookup_alter_ne.
  - rewrite Hstats. cbn -[has_next in_int64 add store].
    eexists. split; [reflexivity|]. split; [reflexivity|].
    unfold insert_stats. cbn [view agent_stats conversations].
    split; [by rewrite lookup_insert_eq|].
    split; [|reflexivity]. intros other Hne. by rewrite lookup_insert_ne.
Qed.

End counters.

Lemma append_counts_within_int64_witness :
  ∃ c',
    Ledger.save_conversation "a" Small.said (Small.answered (Some 7)) 100 Small.ledger
    = (Ledger.Done tt, Ledger.mk (Some c') []) ∧
    Ledger.agent_stats (Ledger.view c') !! "a"
    = Some (Ledger.mkStats (Ledger.Integer 1) (Ledger.Integer 7) 100 100 100).
Proof.
  destruct (append_counts_within_int64 "a" Small.said (Small.answered (Some 7)) 100
              (Ledger.mkConn Ledger.no_tables Ledger.no_tables) [] 7
              eq_refl eq_refl eq_refl eq_refl)
    as (c' & Hsave & _ & Hrow & _).
  exists c'. split; [exact Hsave|exact Hrow].
Defined.

(** C6 fails as stated: an answer that reports 2^63 total tokens is
    appended on an empty database; binding the count raises
    [OverflowError], which is swallowed, and no stats row exists afterwards,
    neither in the connection's view nor committed, where the claim has a
    row with count 1 and 2^63 tokens. *)
Lemma oversized_token_count_leaves_no_stats_row :
  ∃ c',
    Ledger.save_conversation "a" Small.said (Small.answered (Some (2 ^ 63))) 100
      Small.ledger
    = (Ledger.Done tt,
       Ledger.mk (Some c') [Ledger.Error_saving_conversation Ledger.OverflowError]) ∧
    Ledger.agent_stats (Ledger.view c') !! "a" = None ∧
    Ledger.durable c' = Ledger.no_tables.
Proof. eexists. repeat split; by vm_compute. Qed.

(** ** One handle per identity *)

Section single_flight.
Import App Callers.

Lemma get_or_create_instance_stores agent_id app agent app1 :
  get_or_create_instance agent_id app = (Ok agent, app1) →
  active_agents app1 !! agent_id = Some agent.
Proof.
  unfold get_or_create_instance.
  destruct (active_agents app !! agent_id) as [cached_agent|] eqn:Hc.
  - by intros [= <- <-].
  - destruct (AgentManager.get_agent agent_id (agent_manager app)) as [cfg|];
      [|discriminate].
    destruct (negb (dict_truthy cfg)); [discriminate|].
    destruct (negb (truthy _)); [discriminate|].
    destruct (AgentManager.create_agent_instance cfg) as [built|e]; [|discriminate].
    intros [= <- <-]. cbn. apply lookup_insert_eq.
Qed.




End single_flight.


(** ** The handlers on the definition store *)

(** The handlers pass [agent_config.dict()], a dict of their own, to the
    manager, so the dict the manager stamps and stores is shared with no
    other definition. *)
Section handlers_on_store.
Import App.

(** X7.  [PUT /api/agents/{agent_id}] on a known identity keeps the
    identity and the creation time of the stored definition, sets the
    update time, takes the nine fields from the request, writes the same
    dict to the cache and to disk, and leaves the other definitions, the
    cached handles and the database alone. *)
Theorem put_keeps_identity_and_creation now agent_id draft app original :
  AgentManager.agents_cache (agent_manager app) !! agent_id = Some original →
  ∃ app' stored,
    update_agent now agent_id draft app = (Ok tt, app') ∧
    AgentManager.agents_cache (agent_manager app') !! agent_id = Some stored ∧
    AgentManager.agents_dir (agent_manager app') !! agent_id = Some stored ∧
    stored !! "id" = Some (PStr agent_id) ∧
    stored !! "created_at" = Some (default PNone (original !! "created_at")) ∧
    stored !! "updated_at" = Some (PStr now) ∧
    (∀ k, k ≠ "id" → k ≠ "created_at" → k ≠ "updated_at" →
          stored !! k = dict draft !! k) ∧
    (∀ other, other ≠ agent_id →
       AgentManager.agents_cache (agent_manager app') !! other
       = AgentManager.agents_cache (agent_manager app) !! other ∧
       AgentManager.agents_dir (agent_manager app') !! other
       = AgentManager.agents_dir (agent_manager app) !! other) ∧
    active_agents app' = active_agents app ∧
    database app' = database app.
Proof.
  intros Horig. unfold update_agent, AgentManager.update_agent. rewrite Horig.
  eexists _, _. split; [done|]. cbn.
  split; [by rewrite lookup_insert_eq|].
  split; [by rewrite lookup_insert_eq|].
  split; [by do 2 (rewrite lookup_insert_ne by done); rewrite lookup_insert_eq|].
  split; [by rewrite lookup_insert_ne by done; rewrite lookup_insert_eq|].
  split; [by rewrite lookup_insert_eq|].
  split; [intros k H1 H2 H3; by do 3 (rewrite lookup_insert_ne by done)|].
  split; [|done]. intros other Hne. by rewrite !lookup_insert_ne by done.
Qed.


(** X9.  A delete request right after the create request for a fresh
    identity gives back the application state as it was: the definition is
    gone from the cache and from disk, and nothing else has changed. *)
Theorem delete_after_create_restores uuid4 now1 now2 draft app :
  AgentManager.agents_cache (agent_manager app) !! uuid4 = None →
  AgentManager.agents_dir (agent_manager app) !! uuid4 = None →
  active_agents app !! uuid4 = None →
  conversation_history app !! uuid4 = None →
  delete_agent uuid4 (snd (create_agent uuid4 now1 now2 draft app)) = (Ok tt, app).
Proof.
  intros Hc Hd Ha Hh. unfold delete_agent, AgentManager.delete_agent. cbn.
  rewrite lookup_insert_eq. cbn.
  rewrite !delete_insert_eq, !delete_id by done.
  destruct app as [[cache dir] db aa ch]. done.
Qed.

End handlers_on_store.

Lemma put_keeps_identity_and_creation_witness :
  ∃ app' stored,
    App.update_agent "t9" "a" Small.draft Small.app = (Ok tt, app') ∧
    AgentManager.agents_cache (App.agent_manager app') !! "a" = Some stored ∧
    stored !! "id" = Some (PStr "a") ∧
    stored !! "updated_at" = Some (PStr "t9").
Proof.
  destruct (put_keeps_identity_and_creation "t9" "a" Small.draft Small.app
              Small.definition eq_refl)
    as (app' & stored & H1 & H2 & _ & H4 & _ & H6 & _).
  by exists app', stored.
Defined.


Lemma delete_after_create_restores_witness :
  App.delete_agent "b" (snd (App.create_agent "b" "t0" "t0" Small.draft Small.app))
  = (Ok tt, Small.app).
Proof.
  by apply (delete_after_create_restores "b" "t0" "t0" Small.draft Small.app).
Defined.

(** ** Reading the history back *)

Section history.
Import Database Derived.









End history.


(** ** Counts that SQLite cannot add *)

Section counters_outside.
Import Ledger.

(** X14.  When the usage reports a total token count outside the signed
    64-bit range (and the exchange finds a row id), the append returns
    normally after printing the
    [OverflowError]; nothing is committed and the stats table is untouched,
    but the exchange row stays in the open transaction of the
    connection. *)
Theorem oversized_count_changes_no_stats agent user_msg agent_msg now c out tokens :
  tokens_used (usage agent_msg) = Some tokens →
  in_int64 tokens = false →
  has_next (conversations_seq (view c)) = true →
  ∃ c',
    save_conversation agent user_msg agent_msg now (mk (Some c) out)
    = (Done tt,
       mk (Some c') (out ++ [Error_saving_conversation OverflowError])) ∧
    durable c' = durable c ∧
    agent_stats (view c') = agent_stats (view c) ∧
    length (conversations (view c')) = S (length (conversations (view c))).
Proof.
  intros Htokens Hrange Hconv.
  unfold save_conversation, _update_agent_stats, try_except, cursor,
    execute_select, fetch, commit, execute_bound, execute_write, on_connection,
    print, mbind, M_bind, mret, M_ret, select_stats, insert_conversation.
  cbn -[has_next in_int64 add store]. rewrite Hconv.
  cbn -[has_next in_int64 add store]. rewrite Htokens.
  unfold bind. rewrite Hrange.
  destruct (agent_stats (view c) !! agent); cbn -[has_next in_int64 add store];
    (eexists; split; [reflexivity|]; cbn; repeat split;
     rewrite length_app; cbn; lia).
Qed.

(** X15.  A total token count of [None] is stored as NULL and stays: after
    an append whose count is [None], or on a row whose token count is
    already NULL, the token count of the agent's row is NULL, whatever
    count (one that SQLite can bind) the append reports. *)
Theorem null_token_count_stays agent user_msg agent_msg now c out bound :
  bind (tokens_used (usage agent_msg)) = Done bound →
  bound = Null ∨
  (∃ r, agent_stats (view c) !! agent = Some r ∧ total_tokens_used r = Null) →
  sequences_fit (view c) agent = true →
  ∃ c' r',
    save_conversation agent user_msg agent_msg now (mk (Some c) out)
    = (Done tt, mk (Some c') out) ∧
    durable c' = view c' ∧
    agent_stats (view c') !! agent = Some r' ∧
    total_tokens_used r' = Null.
Proof.
  intros Hbind Hnull [Hconv Hstats]%andb_prop.
  unfold save_conversation, _update_agent_stats, try_except, cursor,
    execute_select, fetch, commit, execute_bound, execute_write, on_connection,
    print, mbind, M_bind, mret, M_ret, select_stats, insert_conversation.
  cbn -[has_next in_int64 add store bind]. rewrite Hconv.
  cbn -[has_next in_int64 add store bind]. rewrite Hbind.
  destruct (agent_stats (view c) !! agent) as [r|] eqn:E;
    cbn -[has_next in_int64 add store bind].
  - eexists _, _. split; [reflexivity|]. split; [reflexivity|].
    unfold update_stats. cbn [view agent_stats]. rewrite lookup_alter_eq, E.
    cbn [fmap option_fmap option_map].
    split; [reflexivity|]. cbn [total_tokens_used].
    destruct Hnull as [->|(r0 & [= <-] & Hr)].
    + by destruct (total_tokens_used r).
    + by rewrite Hr.
  - rewrite Hstats. cbn -[has_next in_int64 add store bind].
    eexists _, _. split; [reflexivity|]. split; [reflexivity|].
    unfold insert_stats. cbn [view agent_stats]. rewrite lookup_insert_eq.
    split; [reflexivity|]. cbn [total_tokens_used].
    destruct Hnull as [->|(r0 & [=] & _)]. done.
Qed.

End counters_outside.

Lemma oversized_count_changes_no_stats_witness :
  ∃ c',
    Ledger.save_conversation "a" Small.said (Small.answered (Some (2 ^ 63))) 100
      Small.ledger
    = (Ledger.Done tt,
       Ledger.mk (Some c') ([] ++ [Ledger.Error_saving_conversation Ledger.OverflowError])) ∧
    Ledger.durable c' = Ledger.no_tables.
Proof.
  destruct (oversized_count_changes_no_stats "a" Small.said
              (Small.answered (Some (2 ^ 63))) 100
              (Ledger.mkConn Ledger.no_tables Ledger.no_tables) [] (2 ^ 63)
              eq_refl eq_refl eq_refl)
    as (c' & H1 & H2 & _).
  exists c'. split; [exact H1|exact H2].
Defined.

Lemma null_token_count_stays_witness :
  ∃ c' r',
    Ledger.save_conversation "a" Small.said (Small.answered None) 100 Small.ledger
    = (Ledger.Done tt, Ledger.mk (Some c') []) ∧
    Ledger.agent_stats (Ledger.view c') !! "a" = Some r' ∧
    Ledger.total_tokens_used r' = Ledger.Null.
Proof.
  destruct (null_token_count_stays "a" Small.said (Small.answered None) 100
              (Ledger.mkConn Ledger.no_tables Ledger.no_tables) [] Ledger.Null
              eq_refl (or_introl eq_refl) eq_refl)
    as (c' & r' & H1 & _ & H3 & H4).
  exists c', r'. split; [exact H1|]. split; [exact H3|exact H4].
Defined.

(** ** What a chat request leaves behind *)

Section chat_effects.
Import App.
Variable run : AgentManager.Agent → string → result RunResult.

Lemma get_or_create_instance_frame agent_id app r app1 :
  get_or_create_instance agent_id app = (r, app1) →
  database app1 = database app ∧
  conversation_history app1 = conversation_history app ∧
  agent_manager app1 = agent_manager app.
Proof.
  unfold get_or_create_instance.
  destruct (active_agents app !! agent_id); [by intros [= <- <-]|].
  destruct (AgentManager.get_agent agent_id (agent_manager app)) as [cfg|];
    [|by intros [= <- <-]].
  destruct (negb (dict_truthy cfg)); [by intros [= <- <-]|].
  destruct (negb (truthy _)); [by intros [= <- <-]|].
  destruct (AgentManager.create_agent_instance cfg); by intros [= <- <-].
Qed.

Lemma save_conversation_returns agent user_msg agent_msg now db :
  fst (Database.save_conversation agent user_msg agent_msg now db) = Ok tt.
Proof.
  unfold Database.save_conversation, Database.try_except.
  match goal with |- context [match ?body db with _ => _ end] =>
    destruct (body db) as [[[]|e] db'] end; done.
Qed.

(** X16.  When the model call fails, the chat request is answered with
    that error and the database object is left exactly as it was (no
    exchange is written); the handle stays cached, and the user's message
    has already been added to the in-memory history of the agent. *)
Theorem failed_model_call_leaves_no_exchange
    t_user t_agent now chat_message app agent app1 e :
  get_or_create_instance (agent_id chat_message) app = (Ok agent, app1) →
  run agent (message chat_message) = Raise e →
  ∃ app',
    chat_with_agent run t_user t_agent now chat_message app = (ChatFailure e, app') ∧
    database app' = database app ∧
    active_agents app' !! agent_id chat_message = Some agent ∧
    conversation_history app' !! agent_id chat_message
    = Some (default [] (conversation_history app !! agent_id chat_message)
            ++ [Database.mkMessage "user" (message chat_message) t_user None])%list.
Proof.
  intros Hget Hrun.
  destruct (get_or_create_instance_frame _ _ _ _ Hget) as (Hdb & Hhist & _).
  pose proof (get_or_create_instance_stores _ _ _ _ Hget) as Hstored.
  unfold chat_with_agent. rewrite Hget, Hrun.
  eexists. split; [reflexivity|]. cbn.
  split; [done|]. split; [done|].
  by rewrite lookup_insert_eq, Hhist.
Qed.

(** X17.  The answer to a chat request does not depend on the database
    object: with the same definitions, handles and in-memory history, the
    request gets the same answer whatever state the database is in
    (unconnected, failing or full), because [save_conversation] swallows
    every failure. *)
Theorem chat_answer_ignores_database
    t_user t_agent now chat_message m db db' handles history :
  fst (chat_with_agent run t_user t_agent now chat_message (mk m db handles history))
  = fst (chat_with_agent run t_user t_agent now chat_message (mk m db' handles history)).
Proof.
  assert (Hchat : ∀ d, fst (chat_with_agent run t_user t_agent now chat_message
                              (mk m d handles history))
                       = match fst (get_or_create_instance (agent_id chat_message)
                                      (mk m d handles history)) with
                         | Raise e => ChatFailure e
                         | Ok agent =>
                             match run agent (message chat_message) with
                             | Raise e => ChatFailure e
                             | Ok res => ChatSuccess (data res) (run_usage res)
                             end
                         end).
  { intros d. unfold chat_with_agent.
    destruct (get_or_create_instance (agent_id chat_message) (mk m d handles history))
      as [[agent|e] app1]; [|done].
    cbn [fst]. destruct (run agent (message chat_message)) as [res|e]; [|done].
    match goal with |- context [Database.save_conversation ?a ?u ?v ?n ?x] =>
      pose proof (save_conversation_returns a u v n x) as Hret;
      destruct (Database.save_conversation a u v n x) as [[[]|err] d'];
      [done|discriminate] end. }
  rewrite !Hchat. f_equal.
  unfold get_or_create_instance. cbn [active_agents agent_manager].
  destruct (handles !! agent_id chat_message); [done|].
  destruct (AgentManager.get_agent (agent_id chat_message) m) as [cfg|]; [|done].
  destruct (negb (dict_truthy cfg)); [done|].
  destruct (negb (truthy _)); [done|].
  by destruct (AgentManager.create_agent_instance cfg).
Qed.

(** X18.  After a successful delete request a chat request for that
    identity is refused with "Agent not found" and changes nothing; the
    delete itself leaves the database, and so the exchanges already
    recorded for the agent, as they were. *)
Theorem chat_after_delete_is_refused t_user t_agent now chat_message app app' :
  delete_agent (agent_id chat_message) app = (Ok tt, app') →
  chat_with_agent run t_user t_agent now chat_message app'
  = (ChatFailure (HTTPException 404 "Agent not found"), app') ∧
  database app' = database app.
Proof.
  unfold delete_agent, AgentManager.delete_agent.
  destruct (AgentManager.agents_cache (agent_manager app) !! agent_id chat_message);
    [|discriminate].
  intros [= <-]. split; [|done].
  unfold chat_with_agent, get_or_create_instance, AgentManager.get_agent. cbn.
  by rewrite !lookup_delete_eq.
Qed.

End chat_effects.

Lemma failed_model_call_leaves_no_exchange_witness :
  ∃ app',
    App.chat_with_agent (λ _ _, Raise RuntimeFailure) "t1" "t2" 100
      (App.mkChatMessage "a" "hello" "default") Small.app
    = (App.ChatFailure RuntimeFailure, app') ∧
    App.database app' = App.database Small.app.
Proof.
  destruct (failed_model_call_leaves_no_exchange (λ _ _, Raise RuntimeFailure)
              "t1" "t2" 100 (App.mkChatMessage "a" "hello" "default")
              Small.app Small.handle Small.app_cached RuntimeFailure
              eq_refl eq_refl)
    as (app' & H1 & H2 & _).
  exists app'. split; [exact H1|exact H2].
Defined.

Lemma chat_after_delete_is_refused_witness :
  App.chat_with_agent Scenario.echo_run "t1" "t2" 100
    (App.mkChatMessage "a" "hello" "default")
    (snd (App.delete_agent "a" Small.app_cached))
  = (App.ChatFailure (HTTPException 404 "Agent not found"),
     snd (App.delete_agent "a" Small.app_cached)).
Proof.
  apply (chat_after_delete_is_refused Scenario.echo_run "t1" "t2" 100
           (App.mkChatMessage "a" "hello" "default") Small.app_cached).
  reflexivity.
Defined.
